(** * MEDLINE XML field extraction: a shallow embedding of
      [pubmed_parser/medline_parser.py] and the properties of its extractors.

    The lxml element tree is an inductive type, Python's [None]-or-value
    results are [option], raised exceptions are the [Raise] constructor of a
    small error monad, and dictionaries are association lists in insertion
    order.  Strings are sequences of code points below 256; on that range
    Python's [\d] is ['0'..'9'] and [str.strip] removes the characters listed
    in [is_space]. *)

From Stdlib Require Import String Ascii List Bool Arith Lia.
Import ListNotations.
Open Scope string_scope.

Set Implicit Arguments.
Set Warnings "-register-all".

(* ================================================================== *)
(** ** Python strings *)
(* ================================================================== *)

Module PyStr.

(** [str.isspace] on one character, restricted to code points below 256:
    TAB..CR, FS..US, SPACE, NEL and NBSP. *)
Definition is_space (c : ascii) : bool :=
  let n := nat_of_ascii c in
  (((9 <=? n) && (n <=? 13)) || ((28 <=? n) && (n <=? 32))
   || (n =? 133) || (n =? 160))%nat.

(** [\d] on one character. *)
Definition is_digit (c : ascii) : bool :=
  let n := nat_of_ascii c in ((48 <=? n) && (n <=? 57))%nat.

Fixpoint lstrip (s : string) : string :=
  match s with
  | String c rest => if is_space c then lstrip rest else s
  | EmptyString => EmptyString
  end.

Fixpoint all_space (s : string) : bool :=
  match s with
  | String c rest => is_space c && all_space rest
  | EmptyString => true
  end.

Fixpoint rstrip (s : string) : string :=
  match s with
  | String c rest => if all_space s then EmptyString else String c (rstrip rest)
  | EmptyString => EmptyString
  end.

(** [s.strip()] *)
Definition strip (s : string) : string := rstrip (lstrip s).

(** [sep.join(parts)] on a list of strings. *)
Fixpoint join (sep : string) (parts : list string) : string :=
  match parts with
  | [] => ""
  | [p] => p
  | p :: rest => p ++ sep ++ join sep rest
  end.

(** [sub in s] *)
Fixpoint contains (sub s : string) : bool :=
  prefix sub s ||
  match s with
  | String _ rest => contains sub rest
  | EmptyString => false
  end.

(** [s.replace(old, "")] for a non-empty [old]: occurrences are removed
    left to right without overlap.  [skip] counts the characters of the
    current occurrence still to be dropped. *)
Fixpoint remove_from (old : string) (skip : nat) (s : string) : string :=
  match s with
  | EmptyString => EmptyString
  | String c rest =>
      match skip with
      | S k => remove_from old k rest
      | O => if prefix old s
             then remove_from old (String.length old - 1) rest
             else String c (remove_from old 0 rest)
      end
  end.

Definition remove_all (old s : string) : string := remove_from old 0 s.

Fixpoint all_digits (s : string) : bool :=
match s with
| String c rest => is_digit c && all_digits rest
| EmptyString => true
end.

(** The four characters at the head of [s] when all four are digits. *)
Definition four_digits_here (s : string) : option string :=
  match s with
  | String a (String b (String c (String d _))) =>
      if is_digit a && is_digit b && is_digit c && is_digit d
      then Some (String a (String b (String c (String d EmptyString))))
      else None
  | _ => None
  end.

(** [re.findall(r"\d{4}", s)]: the non-overlapping matches, leftmost first.
    [skip] counts the characters of the current match still to be passed. *)
Fixpoint findall_d4_from (skip : nat) (s : string) : list string :=
  match s with
  | EmptyString => []
  | String _ rest =>
      match skip with
      | S k => findall_d4_from k rest
      | O => match four_digits_here s with
             | Some m => m :: findall_d4_from 3 rest
             | None => findall_d4_from 0 rest
             end
      end
  end.

Definition findall_d4 (s : string) : list string := findall_d4_from 0 s.

(** [x or ""] on a string. *)
Definition or_empty (o : option string) : string :=
  match o with Some s => s | None => "" end.

End PyStr.

(* ================================================================== *)
(** ** Exceptions *)
(* ================================================================== *)

Inductive exn : Type := AttributeError | TypeError | IndexError.

Inductive result (A : Type) : Type :=
| Ok (a : A)
| Raise (e : exn).

Arguments Ok {A} a.
Arguments Raise {A} e.

Definition bind {A B : Type} (m : result A) (f : A -> result B) : result B :=
  match m with
  | Ok a => f a
  | Raise e => Raise e
  end.

Notation "x <- m ;; k" := (bind m (fun x => k))
  (at level 61, m at next level, right associativity).

(** [[f(x) for x in xs]]: elements are visited left to right and the first
    exception ends the loop. *)
Fixpoint mapM {A B : Type} (f : A -> result B) (xs : list A) : result (list B) :=
  match xs with
  | [] => Ok []
  | x :: rest => y <- f x ;; ys <- mapM f rest ;; Ok (y :: ys)
  end.

(** [for x in xs: acc = body(acc, x)] *)
Fixpoint foldM {A S : Type} (body : S -> A -> result S) (acc : S) (xs : list A)
  : result S :=
  match xs with
  | [] => Ok acc
  | x :: rest => acc' <- body acc x ;; foldM body acc' rest
  end.

(* ================================================================== *)
(** ** The element tree *)
(* ================================================================== *)

Inductive Element : Type :=
  Elem (tag : string) (attrib : list (string * string)) (text : option string)
       (children : list Element) (tail : option string).

Module El.

Definition tag (e : Element) : string := let 'Elem t _ _ _ _ := e in t.
Definition attrib (e : Element) : list (string * string) :=
  let 'Elem _ a _ _ _ := e in a.
Definition text (e : Element) : option string := let 'Elem _ _ x _ _ := e in x.
Definition getchildren (e : Element) : list Element :=
  let 'Elem _ _ _ c _ := e in c.
Definition tail (e : Element) : option string := let 'Elem _ _ _ _ x := e in x.

(** [e.attrib.get(key)] *)
Fixpoint attrib_lookup (key : string) (a : list (string * string)) : option string :=
  match a with
  | [] => None
  | (k, v) :: rest => if String.eqb k key then Some v else attrib_lookup key rest
  end.

Definition get (e : Element) (key : string) : option string :=
  attrib_lookup key (attrib e).

(** [e.attrib.get(key, default)] *)
Definition get_default (e : Element) (key default : string) : string :=
  match get e key with Some v => v | None => default end.

(** [e.findall(name)] for a plain tag name. *)
Definition findall (e : Element) (name : string) : list Element :=
  filter (fun c => String.eqb (tag c) name) (getchildren e).

(** [e.findall("a/b/...")]: one child step per path segment. *)
Fixpoint findall_path (es : list Element) (path : list string) : list Element :=
  match path with
  | [] => es
  | name :: rest => findall_path (flat_map (fun e => findall e name) es) rest
  end.

(** [e.find(name)] *)
Definition find (e : Element) (name : string) : option Element :=
  hd_error (findall e name).

(** [e.find("a/b/...")] *)
Definition find_path (e : Element) (path : list string) : option Element :=
  hd_error (findall_path [e] path).

(** [e.find('name[@key="value"]')] *)
Definition find_attr (e : Element) (name key value : string) : option Element :=
  hd_error
    (filter (fun c => match get c key with
                      | Some v => String.eqb v value
                      | None => false
                      end)
            (findall e name)).

(** [e.iterdescendants()]: every element below [e], in document order. *)
Fixpoint iterdescendants (e : Element) : list Element :=
  match e with
  | Elem _ _ _ cs _ => flat_map (fun c => c :: iterdescendants c) cs
  end.

(** [root.findall(".//a/b")]: the [b] children of the [a] descendants. *)
Definition findall_desc (root : Element) (name : string) (path : list string)
  : list Element :=
  findall_path
    (filter (fun d => String.eqb (tag d) name) (iterdescendants root)) path.

(** [e.xpath("name/text()")]: the text nodes directly under the [name]
    children: the leading text and the tails of the grandchildren. *)
Definition text_nodes (e : Element) : list string :=
  let opt o := match o with Some s => [s] | None => [] end in
  opt (text e) ++ flat_map (fun c => opt (tail c)) (getchildren e).

Definition xpath_text (e : Element) (name : string) : list string :=
  flat_map text_nodes (findall e name).

(** Truth value of an element: lxml answers whether it has children. *)
Definition truthy (o : option Element) : bool :=
  match o with
  | Some e => match getchildren e with [] => false | _ => true end
  | None => false
  end.

End El.

(** Attribute access or a method call on a value that may be [None]. *)
Definition nonnull {A : Type} (o : option A) : result A :=
  match o with
  | Some a => Ok a
  | None => Raise AttributeError
  end.

(* ================================================================== *)
(** ** Python values and dictionaries *)
(* ================================================================== *)

Inductive pyval : Type :=
| VNone
| VStr (s : string)
| VBool (b : bool)
| VNan                      (* numpy's nan, the marker of delete records *)
| VElem (e : Element)       (* an element object stored as a value *)
| VList (l : list pyval)
| VDict (d : list (string * pyval)).

Definition dict : Type := list (string * pyval).

Definition of_text (o : option string) : pyval :=
  match o with Some s => VStr s | None => VNone end.

Definition of_elem (o : option Element) : pyval :=
  match o with Some e => VElem e | None => VNone end.

Definition is_str (v : pyval) : bool :=
  match v with VStr _ => true | _ => false end.

Module Dict.

(** [d.get(key)] *)
Fixpoint get (d : dict) (key : string) : pyval :=
  match d with
  | [] => VNone
  | (k, v) :: rest => if String.eqb k key then v else get rest key
  end.

(** [d.get(key, default)] *)
Fixpoint get_default (d : dict) (key : string) (default : pyval) : pyval :=
  match d with
  | [] => default
  | (k, v) :: rest => if String.eqb k key then v else get_default rest key default
  end.

Fixpoint mem (d : dict) (key : string) : bool :=
  match d with
  | [] => false
  | (k, _) :: rest => String.eqb k key || mem rest key
  end.

(** [d[key] = v]: an existing key keeps its position. *)
Fixpoint set (d : dict) (key : string) (v : pyval) : dict :=
  match d with
  | [] => [(key, v)]
  | (k, v0) :: rest =>
      if String.eqb k key then (k, v) :: rest else (k, v0) :: set rest key v
  end.

(** [d.update(other)] *)
Definition update (d other : dict) : dict :=
  fold_left (fun acc kv => set acc (fst kv) (snd kv)) other d.

Definition keys (d : dict) : list string := map fst d.

End Dict.

(** [a + b] where the operands are strings or [None]: the operands are added
    left to right and a [None] operand is a [TypeError]. *)
Fixpoint cat_from (acc : string) (parts : list (option string)) : result string :=
  match parts with
  | [] => Ok acc
  | Some s :: rest => cat_from (acc ++ s) rest
  | None :: _ => Raise TypeError
  end.

Definition cat (parts : list (option string)) : result string :=
  match parts with
  | [] => Ok ""
  | Some s :: rest => cat_from s rest
  | None :: _ => Raise TypeError
  end.

(** [a + b] on values: defined on two strings only. *)
Definition py_add (a b : pyval) : result pyval :=
  match a, b with
  | VStr x, VStr y => Ok (VStr (x ++ y))
  | _, _ => Raise TypeError
  end.

(** [a + b + c + ...] *)
Definition py_sum (first : pyval) (others : list pyval) : result pyval :=
  foldM py_add first others.

Definition as_str (v : pyval) : result string :=
  match v with
  | VStr s => Ok s
  | _ => Raise TypeError
  end.

(** Some item is not a string. *)
Definition has_non_str (items : list pyval) : bool :=
  existsb (fun v => negb (is_str v)) items.

(** [sep.join(items)]: every item has to be a string. *)
Definition py_join (sep : string) (items : list pyval) : result string :=
  parts <- mapM as_str items ;; Ok (PyStr.join sep parts).

(** [a + "|" + b + "|" + ...] over the values of one sub-record. *)
Fixpoint bar_others (vals : list pyval) : list pyval :=
  match vals with
  | [] => []
  | v :: rest => VStr "|" :: v :: bar_others rest
  end.

Definition bar_row (vals : list pyval) : result pyval :=
  match vals with
  | [] => Ok (VStr "")
  | v :: rest => py_sum v (bar_others rest)
  end.

(** [";".join([row(r) for r in records])] *)
Definition joined_rows (row : dict -> list pyval) (records : list dict) : result string :=
  rows <- mapM (fun r => bar_row (row r)) records ;;
  py_join ";" rows.

(** [len(x)] *)
Definition py_len (v : pyval) : result nat :=
  match v with
  | VList l => Ok (List.length l)
  | VStr s => Ok (String.length s)
  | VDict d => Ok (List.length d)
  | _ => Raise TypeError
  end.

(** [for item in x] *)
Definition py_iter (v : pyval) : result (list pyval) :=
  match v with
  | VList l => Ok l
  | _ => Raise TypeError
  end.

(** [v != ""] *)
Definition differs_from_empty (v : pyval) : bool :=
  match v with
  | VStr s => negb (String.eqb s "")
  | _ => true
  end.

(** The line feed character. *)
Definition nl : string := String (ascii_of_nat 10) EmptyString.

(** [xs.append(x)] *)
Definition append_item {A : Type} (xs : list A) (x : A) : list A := (xs ++ [x])%list.

(** [x not in xs: xs.append(x)] on a list of strings. *)
Definition mem_str (x : string) (xs : list string) : bool :=
  existsb (String.eqb x) xs.

Definition append_new (xs : list string) (x : string) : list string :=
  if mem_str x xs then xs else append_item xs x.

(* ================================================================== *)
(** ** The extractors of [medline_parser.py] *)
(* ================================================================== *)

(** The four lists that [parse_mesh_info] fills while it walks the headings. *)
Record MeshLists : Type := mkMeshLists {
  mesh_terms_list : list string;
  mesh_subheadings_list : list string;
  mesh_major_topics_list : list string;
  mesh_full_terms_list : list string
}.

Section MedlineParser.

(** The two helpers imported from [pubmed_parser.utils], which is not among
    the sources: the text flattener and the month/day token formatter. *)
Variable stringify_children : Element -> string.
Variable month_or_day_formater : option string -> result (option string).

Definition parse_pmid (pubmed_article : Element) : result pyval :=
  medline <- nonnull (El.find pubmed_article "MedlineCitation") ;;
  match El.find medline "PMID" with
  | Some p => Ok (of_text (El.text p))
  | None =>
      match El.find_path pubmed_article ["PubmedData"; "ArticleIdList"] with
      | Some article_ids =>
          match El.find_attr article_ids "ArticleId" "IdType" "pmid" with
          | Some pmid =>
              match El.text pmid with
              | Some t => Ok (VStr (PyStr.strip t))
              | None => Ok (VStr "")
              end
          | None => Ok (VStr "")
          end
      | None => Ok (VStr "")
      end
  end.

(** One round of the loop over the ELocationID children: the previous
    value of [doi] is dropped. *)
Definition doi_step (_ : string) (e : Element) : result string :=
  if String.eqb (El.get_default e "EIdType" "") "doi"
  then t <- nonnull (El.text e) ;; Ok (PyStr.strip t)
  else Ok "".

Definition parse_doi (pubmed_article : Element) : result string :=
  medline <- nonnull (El.find pubmed_article "MedlineCitation") ;;
  article <- nonnull (El.find medline "Article") ;;
  let elocation_ids := El.findall article "ELocationID" in
  match elocation_ids with
  | _ :: _ => foldM doi_step "" elocation_ids
  | [] =>
      match El.find_path pubmed_article ["PubmedData"; "ArticleIdList"] with
      | Some article_ids =>
          match El.find_attr article_ids "ArticleId" "IdType" "doi" with
          | Some doi =>
              match El.text doi with
              | Some t => Ok (PyStr.strip t)
              | None => Ok ""
              end
          | None => Ok ""
          end
      | None => Ok ""
      end
  end.

Definition elocation_step (st : bool * list dict) (e : Element)
  : result (bool * list dict) :=
  let '(found_doi, elocation_ids) := st in
  let elocation_id_type := El.get e "EIdType" in
  let found_doi' :=
    match elocation_id_type with
    | Some t => if String.eqb t "doi" then true else found_doi
    | None => found_doi
    end in
  t <- nonnull (El.text e) ;;
  Ok (found_doi',
      append_item elocation_ids [("type", of_text elocation_id_type);
                                 ("ELocationID", VStr (PyStr.strip t))]).

Definition parse_elocation_ids (pubmed_article : Element) : result (list dict) :=
  medline <- nonnull (El.find pubmed_article "MedlineCitation") ;;
  article <- nonnull (El.find medline "Article") ;;
  st <- foldM elocation_step (false, []) (El.findall article "ELocationID") ;;
  let '(found_doi, elocation_ids) := st in
  if found_doi then Ok elocation_ids
  else
    match El.find_path pubmed_article ["PubmedData"; "ArticleIdList"] with
    | Some article_ids =>
        match El.find_attr article_ids "ArticleId" "IdType" "doi" with
        | Some doi =>
            t <- nonnull (El.text doi) ;;
            if String.eqb (PyStr.strip t) "" then Ok elocation_ids
            else Ok (append_item elocation_ids
                                 [("type", VStr "doi");
                                  ("ELocationID", VStr (PyStr.strip t))])
        | None => Ok elocation_ids
        end
    | None => Ok elocation_ids
    end.

(** [e.attrib.get("MajorTopicYN", "N") == "Y"] *)
Definition is_major (e : Element) : bool :=
  String.eqb (El.get_default e "MajorTopicYN" "N") "Y".

Definition ui (e : Element) : string := El.get_default e "UI" "".

Definition star (e : Element) : string := if is_major e then "*" else "".

(** The body of the loop over the qualifiers of one heading. *)
Definition mesh_subheading_step (mesh_term : Element) (acc : MeshLists)
           (subheading : Element) : result MeshLists :=
  subheading_text <- cat [Some (ui subheading); Some ":"; El.text subheading] ;;
  let subs := append_new (mesh_subheadings_list acc) subheading_text in
  let majors :=
    if is_major subheading
    then append_new (mesh_major_topics_list acc) subheading_text
    else mesh_major_topics_list acc in
  full <- cat [Some (ui mesh_term); Some "/"; Some (ui subheading); Some ":";
               El.text mesh_term; Some "/"; El.text subheading;
               Some (star subheading)] ;;
  Ok (mkMeshLists (mesh_terms_list acc) subs majors
                  (append_item (mesh_full_terms_list acc) full)).

(** The body of the loop over the children of MeshHeadingList. *)
Definition mesh_heading_step (acc : MeshLists) (mesh_heading : Element)
  : result MeshLists :=
  let subheadings := El.findall mesh_heading "QualifierName" in
  mesh_term <- nonnull (El.find mesh_heading "DescriptorName") ;;
  term <- cat [Some (ui mesh_term); Some ":"; El.text mesh_term] ;;
  let acc1 := mkMeshLists (append_item (mesh_terms_list acc) term)
                          (mesh_subheadings_list acc)
                          (mesh_major_topics_list acc)
                          (mesh_full_terms_list acc) in
  match subheadings with
  | _ :: _ => foldM (mesh_subheading_step mesh_term) acc1 subheadings
  | [] =>
      majors <- (if is_major mesh_term
                 then t <- cat [Some (ui mesh_term); Some ":"; El.text mesh_term] ;;
                      Ok (append_item (mesh_major_topics_list acc1) t)
                 else Ok (mesh_major_topics_list acc1)) ;;
      full <- cat [Some (ui mesh_term); Some ":"; El.text mesh_term;
                   Some (star mesh_term)] ;;
      Ok (mkMeshLists (mesh_terms_list acc1) (mesh_subheadings_list acc1) majors
                      (append_item (mesh_full_terms_list acc1) full))
  end.

Definition parse_mesh_lists (mesh : Element) : result MeshLists :=
  foldM mesh_heading_step (mkMeshLists [] [] [] []) (El.getchildren mesh).

Definition parse_mesh_info (medline : Element) : result dict :=
  match El.find medline "MeshHeadingList" with
  | Some mesh =>
      l <- parse_mesh_lists mesh ;;
      Ok [("mesh_terms", VStr (PyStr.join "; " (mesh_terms_list l)));
          ("mesh_subheadings", VStr (PyStr.join "; " (mesh_subheadings_list l)));
          ("mesh_major_topics", VStr (PyStr.join "; " (mesh_major_topics_list l)));
          ("mesh_full_terms", VStr (PyStr.join "; " (mesh_full_terms_list l)))]
  | None =>
      Ok [("mesh_terms", VStr ""); ("mesh_subheadings", VStr "");
          ("mesh_major_topics", VStr ""); ("mesh_full_terms", VStr "")]
  end.

Definition parse_publication_types (medline : Element) : result string :=
  match El.find_path medline ["Article"; "PublicationTypeList"] with
  | Some publication_type_list =>
      publication_types <-
        mapM (fun publication_type =>
                t <- nonnull (El.text publication_type) ;;
                Ok (ui publication_type ++ ":" ++ PyStr.strip t))
             (El.findall publication_type_list "PublicationType") ;;
      Ok (PyStr.join "; " publication_types)
  | None => Ok ""
  end.

Definition parse_keywords (medline : Element) : string :=
  match El.find medline "KeywordList" with
  | Some keyword_list =>
      PyStr.join "; "
        (flat_map (fun k => match El.text k with Some t => [t] | None => [] end)
                  (El.findall keyword_list "Keyword"))
  | None => ""
  end.

Definition parse_chemical_list (medline : Element) : result string :=
  match El.find medline "ChemicalList" with
  | Some chemicals =>
      chemical_list <-
        mapM (fun chemical =>
                registry_number <- nonnull (El.find chemical "RegistryNumber") ;;
                rn <- nonnull (El.text registry_number) ;;
                substance_name <- nonnull (El.find chemical "NameOfSubstance") ;;
                sn <- nonnull (El.text substance_name) ;;
                Ok (PyStr.strip rn ++ ":" ++ ui substance_name ++ ":"
                    ++ PyStr.strip sn))
             (El.findall chemicals "Chemical") ;;
      Ok (PyStr.join "; " chemical_list)
  | None => Ok ""
  end.

(** One round of the loop over the OtherID children: [in] on a missing
    text is a [TypeError]. *)
Definition other_id_step (st : string * list string) (oid : Element)
  : result (string * list string) :=
  let '(pmc, other_id) := st in
  match El.text oid with
  | Some t => if PyStr.contains "PMC" t then Ok (t, other_id)
              else Ok (pmc, append_item other_id t)
  | None => Raise TypeError
  end.

Definition parse_other_id (medline : Element) : result dict :=
  st <- foldM other_id_step ("", []) (El.findall medline "OtherID") ;;
  let '(pmc, other_id) := st in
  Ok [("pmc", VStr pmc); ("other_id", VStr (PyStr.join "; " other_id))].

Definition parse_journal_info (medline : Element) : dict :=
  let field_or_empty (info : Element) (name : string) : string :=
    match El.find info name with
    | Some x => PyStr.or_empty (El.text x)
    | None => ""
    end in
  match El.find medline "MedlineJournalInfo" with
  | Some journal_info =>
      [("medline_ta", VStr (PyStr.strip (field_or_empty journal_info "MedlineTA")));
       ("nlm_unique_id", VStr (field_or_empty journal_info "NlmUniqueID"));
       ("issn_linking",
        match El.find journal_info "ISSNLinking" with
        | Some x => of_text (El.text x)
        | None => VStr ""
        end);
       ("country", VStr (field_or_empty journal_info "Country"))]
  | None =>
      [("medline_ta", VStr (PyStr.strip "")); ("nlm_unique_id", VStr "");
       ("issn_linking", VStr ""); ("country", VStr "")]
  end.

(** A sub-element of a grant: its text when the element is there (the text
    itself may be [None]), the empty string when it is not. *)
Definition grant_field (grant : Element) (name : string) : pyval :=
  match El.find grant name with
  | Some x => of_text (El.text x)
  | None => VStr ""
  end.

Definition grant_dict (pmid : pyval) (grant : Element) : dict :=
  [("pmid", pmid);
   ("grant_id", grant_field grant "GrantID");
   ("grant_acronym", grant_field grant "Acronym");
   ("country", grant_field grant "Country");
   ("agency", grant_field grant "Agency")].

Definition parse_grant_id (pubmed_article : Element) : result (list dict) :=
  medline <- nonnull (El.find pubmed_article "MedlineCitation") ;;
  let article := El.find medline "Article" in
  pmid <- parse_pmid pubmed_article ;;
  article <- nonnull article ;;
  match El.find article "GrantList" with
  | Some grants => Ok (map (grant_dict pmid) (El.getchildren grants))
  | None => Ok []
  end.

(** [(node.find(name).text or "").strip() or ""] when the child is there,
    [""] when it is not. *)
Definition stripped_child (node : Element) (name : string) : string :=
  match El.find node name with
  | Some x => PyStr.strip (PyStr.or_empty (El.text x))
  | None => ""
  end.

Definition boilerplate_affiliation : string :=
  "For a full list of the authors' affiliations please see the Acknowledgements section.".

Definition author_dict (authors_type : string) (author : Element) : dict :=
  let forename := stripped_child author "ForeName" in
  let initials := stripped_child author "Initials" in
  let lastname := stripped_child author "LastName" in
  let '(identifier_type, identifier) :=
    match El.find author "Identifier" with
    | Some identifier_xml =>
        (PyStr.strip (El.get_default identifier_xml "Source" ""),
         PyStr.strip (PyStr.or_empty (El.text identifier_xml)))
    | None => ("", "")
    end in
  let suffix := stripped_child author "Suffix" in
  let corporate := stripped_child author "CollectiveName" in
  let affiliation :=
    match El.find_path author ["AffiliationInfo"; "Affiliation"] with
    | Some a => PyStr.remove_all boilerplate_affiliation (PyStr.or_empty (El.text a))
    | None => ""
    end in
  [("lastname", VStr lastname); ("forename", VStr forename);
   ("initials", VStr initials); ("suffix", VStr suffix);
   ("author_type", VStr authors_type);
   ("identifier_type", VStr identifier_type); ("identifier", VStr identifier);
   ("corporate", VStr corporate); ("affiliation", VStr affiliation)].

Definition parse_author_affiliation (medline : Element) : list dict :=
  match El.find medline "Article" with
  | Some article =>
      flat_map
        (fun author_list =>
           let authors_type := El.get_default author_list "Type" "authors" in
           map (author_dict authors_type) (El.findall author_list "Author"))
        (El.findall article "AuthorList")
  | None => []
  end.

(** [filter(None, [x])]: [None] and the empty string are dropped. *)
Definition truthy_str (o : option string) : list string :=
  match o with
  | Some s => if String.eqb s "" then [] else [s]
  | None => []
  end.

Definition is_none {A : Type} (o : option A) : bool :=
  match o with Some _ => false | None => true end.

(** The month, day, hour and minute of a date node: a component is read
    only when the one before it has an element. *)
Definition date_components (date_xml : Element)
  : result (option string * option string * option string * option string) :=
  match El.find date_xml "Month" with
  | Some m =>
      month <- month_or_day_formater (El.text m) ;;
      match El.find date_xml "Day" with
      | Some d =>
          day <- month_or_day_formater (El.text d) ;;
          match El.find date_xml "Hour" with
          | Some h =>
              hour <- month_or_day_formater (El.text h) ;;
              match El.find date_xml "Minute" with
              | Some mi =>
                  minute <- month_or_day_formater (El.text mi) ;;
                  Ok (month, day, hour, minute)
              | None => Ok (month, day, hour, None)
              end
          | None => Ok (month, day, None, None)
          end
      | None => Ok (month, None, None, None)
      end
  | None => Ok (None, None, None, None)
  end.

Definition get_date_info (date_xml : Element) (year_info_only parse_time : bool)
  : result pyval :=
  st <- match El.find date_xml "Year" with
        | Some y =>
            let year := El.text y in
            if year_info_only then Ok (year, (None, None, None, None))
            else c <- date_components date_xml ;; Ok (year, c)
        | None =>
            match El.find date_xml "MedlineDate" with
            | Some md =>
                match El.text md with
                | Some year_text =>
                    Ok (Some (hd "" (PyStr.findall_d4 year_text)),
                        (None, None, None, None))
                | None => Raise TypeError
                end
            | None => Ok (Some "", (None, None, None, None))
            end
        end ;;
  let '(year, (month, day, hour, minute)) := st in
  if year_info_only || is_none month then Ok (of_text year)
  else
    let date := PyStr.join "-" (truthy_str year ++ truthy_str month ++ truthy_str day) in
    if parse_time && negb (is_none hour)
    then Ok (VStr (date ++ " " ++ PyStr.join ":" (truthy_str hour ++ truthy_str minute)))
    else Ok (VStr date).

Definition date_extractor (journal : Element) (year_info_only : bool) : result pyval :=
  issue <- match El.findall journal "JournalIssue" with
           | i :: _ => Ok i
           | [] => Raise IndexError
           end ;;
  issue_date <- nonnull (El.find issue "PubDate") ;;
  get_date_info issue_date year_info_only false.

Definition reference_dict (ref : Element) : dict :=
  let citation :=
    match El.find ref "Citation" with
    | Some c => match El.text c with Some t => PyStr.strip t | None => "" end
    | None => ""
    end in
  let pmid :=
    match El.find ref "ArticleIdList" with
    | Some article_ids =>
        match El.find_attr article_ids "ArticleId" "IdType" "pubmed" with
        | Some p => match El.text p with Some t => PyStr.strip t | None => "" end
        | None => ""
        end
    | None => ""
    end in
  [("citation", VStr citation); ("pmid", VStr pmid)].

Definition str_of (v : pyval) : string :=
  match v with VStr s => s | _ => "" end.

Definition parse_references (pubmed_article : Element) (reference_list : bool) : pyval :=
  let references :=
    match El.find_path pubmed_article ["PubmedData"; "ReferenceList"] with
    | Some reference_list_data =>
        map reference_dict (El.findall reference_list_data "Reference")
    | None => []
    end in
  if reference_list then VList (map VDict references)
  else VStr (PyStr.join ";"
               (filter (fun p => negb (String.eqb p ""))
                       (map (fun ref => str_of (Dict.get ref "pmid")) references))).

Definition parse_coi_statement (medline : Element) : string :=
  stripped_child medline "CoiStatement".

Definition parse_pubmed_history_dates (pubmed_article : Element)
           (year_info_only parse_time : bool) : result (list dict) :=
  match El.find pubmed_article "PubmedData" with
  | Some _ =>
      match El.find_path pubmed_article ["PubmedData"; "History"] with
      | Some pubmed_history =>
          mapM (fun pubmed_pubdate =>
                  let pub_status := El.get pubmed_pubdate "PubStatus" in
                  pub_date <- get_date_info pubmed_pubdate year_info_only parse_time ;;
                  Ok [("status", of_text pub_status); ("date", pub_date)])
               (El.findall pubmed_history "PubMedPubDate")
      | None => Ok []
      end
  | None => Ok []
  end.

Definition parse_completion_date (medline : Element) (year_info_only : bool)
  : result pyval :=
  match El.find medline "DateCompleted" with
  | Some date_completion_xml => get_date_info date_completion_xml year_info_only false
  | None => Ok (VStr "")
  end.

Definition parse_modification_date (medline : Element) (year_info_only : bool)
  : result pyval :=
  match El.find medline "DateRevised" with
  | Some date_revised_xml => get_date_info date_revised_xml year_info_only false
  | None => Ok (VStr "")
  end.

Definition person_dict (person : Element) : dict :=
  let forename := stripped_child person "ForeName" in
  let initials := stripped_child person "Initials" in
  let lastname := stripped_child person "LastName" in
  let suffix := stripped_child person "Suffix" in
  [("lastname", VStr lastname); ("forename", VStr forename);
   ("initials", VStr initials); ("suffix", VStr suffix)].

Definition parse_investigators_list (medline : Element) : list dict :=
  match El.find medline "InvestigatorList" with
  | Some investigator_list =>
      map person_dict (El.findall investigator_list "Investigator")
  | None => []
  end.

(** One databank: the name is the element that [find] returned. *)
Definition databank_dict (databank_xml : Element) : dict :=
  let databank_name := El.find databank_xml "DataBankName" in
  let accession_number_list_xml := El.find databank_xml "AccessionNumberList" in
  let accession_number_list :=
    match accession_number_list_xml with
    | Some l =>
        if El.truthy accession_number_list_xml
        then map (fun accession_number => of_text (El.text accession_number))
                 (El.findall l "AccessionNumber")
        else []
    | None => []
    end in
  [("name", of_elem databank_name); ("accession_numbers", VList accession_number_list)].

Definition parse_databank_list (medline : Element) : result (list dict) :=
  article <- nonnull (El.find medline "Article") ;;
  let databank_list_xml := El.find article "DataBankList" in
  match databank_list_xml with
  | Some l =>
      if El.truthy databank_list_xml
      then Ok (map databank_dict (El.findall l "DataBank"))
      else Ok []
  | None => Ok []
  end.

(** [element.append(x)] of lxml takes an element and nothing else. *)
Definition Element_append (parent : Element) (x : pyval) : result unit :=
  match x with
  | VElem _ => Ok tt
  | _ => Raise TypeError
  end.

(** The loop appends each sub-record to the element it was read from, not
    to the list that is returned. *)
Definition parse_personal_subject_names_list (medline : Element) : result (list dict) :=
  let personal_subject_names : list dict := [] in
  match El.find medline "PersonalNameSubjectList" with
  | Some personal_subject_names_xml =>
      _ <- foldM (fun (_ : unit) personal_subject_name =>
                    Element_append personal_subject_name
                                   (VDict (person_dict personal_subject_name)))
                 tt
                 (El.findall personal_subject_names_xml "PersonalNameSubject") ;;
      Ok personal_subject_names
  | None => Ok personal_subject_names
  end.

Definition parse_supplementary_concepts_list (medline : Element) : list dict :=
  match El.find medline "SupplMeshList" with
  | Some supplementary_concepts_xml =>
      map (fun supplementary_concept =>
             [("type", of_text (El.get supplementary_concept "Type"));
              ("UI", of_text (El.get supplementary_concept "UI"));
              ("supplementary_concept", of_text (El.text supplementary_concept))])
          (El.findall supplementary_concepts_xml "SupplMeshName")
  | None => []
  end.

(** The keyword arguments that [parse_medline_xml] hands to
    [parse_article_info]. *)
Record Config : Type := mkConfig {
  year_info_only : bool;
  nlm_category : bool;
  author_list : bool;
  reference_list : bool;
  parse_time : bool;
  history_dates_list : bool;
  investigator_list : bool;
  elocation_ids_list : bool;
  databank_list : bool;
  personal_subject_names_list : bool;
  supplementary_concepts_list : bool;
  grant_ids_list : bool
}.

(** The defaults of [parse_medline_xml]: years only, every field joined. *)
Definition default_config : Config :=
  mkConfig true false false false false false false false false false false false.

(** [stringify_children(x).strip() or ""] when the child is there. *)
Definition flattened_child (article : Element) (name : string) : string :=
  match El.find article name with
  | Some x => PyStr.strip (stringify_children x)
  | None => ""
  end.

(** [article.find(path).text or ""] when the node is there. *)
Definition text_at (article : Element) (path : list string) : string :=
  match El.find_path article path with
  | Some x => PyStr.or_empty (El.text x)
  | None => ""
  end.

(** [f"{volume}({issue})"], or [""] without a volume. *)
Definition compose_issue (volume issue : string) : string :=
  if String.eqb volume "" then "" else volume ++ "(" ++ issue ++ ")".

Definition abstract_section (category : string) (abstract : Element) : list string :=
  let section := El.get_default abstract category "" in
  let section_text := PyStr.strip (stringify_children abstract) in
  if String.eqb section "UNASSIGNED" then [section_text]
  else [nl; section; section_text].

Definition parse_abstract (article : Element) (nlm_category : bool) : string :=
  let category := if nlm_category then "NlmCategory" else "Label" in
  match El.findall_path [article] ["Abstract"; "AbstractText"] with
  | first :: others =>
      match others with
      | _ :: _ =>
          PyStr.strip (PyStr.join nl (flat_map (abstract_section category)
                                               (first :: others)))
      | [] => PyStr.strip (stringify_children first)
      end
  | [] => flattened_child article "Abstract"
  end.

(** The loop that renders the databanks as [name/accession] terms. *)
Definition databank_terms (databanks_info : list pyval) (databank : dict)
  : result (list pyval) :=
  let databank_name := Dict.get databank "name" in
  let accession_numbers := Dict.get databank "accession_numbers" in
  n <- py_len accession_numbers ;;
  if (0 <? n)%nat
  then
    items <- py_iter accession_numbers ;;
    foldM (fun info accession_number =>
             t <- py_add databank_name (VStr "/") ;;
             databank_term <- py_add t accession_number ;;
             Ok (append_item info databank_term))
          databanks_info items
  else Ok (append_item databanks_info databank_name).

Definition databanks_joined (databanks : list dict) : result string :=
  databanks_info <- foldM databank_terms [] databanks ;;
  py_join ";" databanks_info.

Definition as_list (records : list dict) : pyval := VList (map VDict records).

Definition parse_article_info (cfg : Config) (pubmed_article : Element) : result dict :=
  medline <- nonnull (El.find pubmed_article "MedlineCitation") ;;
  article <- nonnull (El.find medline "Article") ;;
  let title := flattened_child article "ArticleTitle" in
  let volume := text_at article ["Journal"; "JournalIssue"; "Volume"] in
  languages <- py_join ";" (map (fun language => of_text (El.text language))
                                (El.findall article "Language")) ;;
  let vernacular_title := flattened_child article "VernacularTitle" in
  let short_issue := text_at article ["Journal"; "JournalIssue"; "Issue"] in
  let issue := compose_issue volume short_issue in
  let pages := text_at article ["Pagination"; "MedlinePgn"] in
  let abstract := parse_abstract article (nlm_category cfg) in
  let authors_dict := parse_author_affiliation medline in
  affiliations <-
    (if author_list cfg then Ok ""
     else py_join ";" (filter differs_from_empty
                         (map (fun author => Dict.get_default author "affiliation" (VStr ""))
                              authors_dict))) ;;
  authors <-
    (if author_list cfg then Ok (as_list authors_dict)
     else a <- joined_rows
                 (fun author =>
                    map (fun k => Dict.get_default author k (VStr ""))
                        ["lastname"; "forename"; "initials"; "suffix"; "author_type";
                         "identifier_type"; "identifier"; "corporate"])
                 authors_dict ;;
          Ok (VStr a)) ;;
  let investigators_dict := parse_investigators_list medline in
  investigators <-
    (if investigator_list cfg then Ok (as_list investigators_dict)
     else a <- joined_rows
                 (fun investigator =>
                    map (fun k => Dict.get_default investigator k (VStr ""))
                        ["lastname"; "forename"; "initials"; "suffix"])
                 investigators_dict ;;
          Ok (VStr a)) ;;
  history_dates <- parse_pubmed_history_dates pubmed_article (year_info_only cfg)
                                              (parse_time cfg) ;;
  history_dates <-
    (if history_dates_list cfg then Ok (as_list history_dates)
     else a <- joined_rows
                 (fun history_date =>
                    map (fun k => Dict.get_default history_date k (VStr ""))
                        ["status"; "date"])
                 history_dates ;;
          Ok (VStr a)) ;;
  elocation_ids <- parse_elocation_ids pubmed_article ;;
  elocation_ids <-
    (if elocation_ids_list cfg then Ok (as_list elocation_ids)
     else a <- joined_rows
                 (fun elocation_id =>
                    map (fun k => Dict.get_default elocation_id k (VStr ""))
                        ["type"; "ELocationID"])
                 elocation_ids ;;
          Ok (VStr a)) ;;
  databanks <- parse_databank_list medline ;;
  databanks_info <-
    (if databank_list cfg then Ok (as_list databanks)
     else a <- databanks_joined databanks ;; Ok (VStr a)) ;;
  personal_subject_names <- parse_personal_subject_names_list medline ;;
  personal_subject_names <-
    (if personal_subject_names_list cfg then Ok (as_list personal_subject_names)
     else a <- joined_rows
                 (fun personal_subject_name =>
                    map (fun k => Dict.get_default personal_subject_name k (VStr ""))
                        ["lastname"; "forename"; "initials"; "suffix"])
                 personal_subject_names ;;
          Ok (VStr a)) ;;
  let supplementary_concepts := parse_supplementary_concepts_list medline in
  supplementary_concepts <-
    (if supplementary_concepts_list cfg then Ok (as_list supplementary_concepts)
     else a <- joined_rows
                 (fun supplementary_concept =>
                    map (Dict.get supplementary_concept)
                        ["type"; "UI"; "supplementary_concept"])
                 supplementary_concepts ;;
          Ok (VStr a)) ;;
  publication_status_xml <-
    nonnull (El.find_path pubmed_article ["PubmedData"; "PublicationStatus"]) ;;
  let publication_status := of_text (El.text publication_status_xml) in
  grant_ids <- parse_grant_id pubmed_article ;;
  grant_ids <-
    (if grant_ids_list cfg then Ok (as_list grant_ids)
     else a <- joined_rows
                 (fun grant_id =>
                    map (Dict.get grant_id)
                        ["grant_id"; "grant_acronym"; "country"; "agency"])
                 grant_ids ;;
          Ok (VStr a)) ;;
  journal <- nonnull (El.find article "Journal") ;;
  let journal_name := PyStr.join " " (El.xpath_text journal "Title") in
  pmid <- parse_pmid pubmed_article ;;
  doi <- parse_doi pubmed_article ;;
  let references := parse_references pubmed_article (reference_list cfg) in
  pubdate <- date_extractor journal (year_info_only cfg) ;;
  mesh_results <- parse_mesh_info medline ;;
  publication_types <- parse_publication_types medline ;;
  chemical_list <- parse_chemical_list medline ;;
  let keywords := parse_keywords medline in
  other_id_dict <- parse_other_id medline ;;
  let journal_info_dict := parse_journal_info medline in
  let coi_statement := parse_coi_statement medline in
  completion_date <- parse_completion_date medline (year_info_only cfg) ;;
  modification_date <- parse_modification_date medline (year_info_only cfg) ;;
  let dict_out : dict :=
    [("title", VStr title);
     ("issue", VStr issue);
     ("short_issue", VStr short_issue);
     ("volume", VStr volume);
     ("pages", VStr pages);
     ("abstract", VStr abstract);
     ("journal", VStr journal_name);
     ("authors", authors);
     ("pubdate", pubdate);
     ("pmid", pmid);
     ("mesh_terms", Dict.get mesh_results "mesh_terms");
     ("mesh_subheadings", Dict.get mesh_results "mesh_subheadings");
     ("mesh_major_topics", Dict.get mesh_results "mesh_major_topics");
     ("mesh_full_terms", Dict.get mesh_results "mesh_full_terms");
     ("publication_types", VStr publication_types);
     ("chemical_list", VStr chemical_list);
     ("keywords", VStr keywords);
     ("doi", VStr doi);
     ("references", references);
     ("delete", VBool false);
     ("languages", VStr languages);
     ("vernacular_title", VStr vernacular_title);
     ("coi_statement", VStr coi_statement);
     ("completion_date", completion_date);
     ("modification_date", modification_date);
     ("history_dates", history_dates);
     ("investigators", investigators);
     ("elocation_ids", elocation_ids);
     ("databanks", databanks_info);
     ("personal_subject_names", personal_subject_names);
     ("supplementary_concepts", supplementary_concepts);
     ("publication_status", publication_status);
     ("grant_ids", grant_ids)] in
  let dict_out :=
    if author_list cfg then dict_out
    else Dict.update dict_out [("affiliations", VStr affiliations)] in
  let dict_out := Dict.update dict_out other_id_dict in
  Ok (Dict.update dict_out journal_info_dict).

(** The record that stands for one delete notice: every field but [pmid]
    and [delete] is numpy's nan. *)
Definition delete_dict (pmid : string) : dict :=
  [("title", VNan); ("abstract", VNan); ("journal", VNan); ("authors", VNan);
   ("affiliations", VNan); ("pubdate", VNan); ("pmid", VStr pmid); ("doi", VNan);
   ("other_id", VNan); ("pmc", VNan); ("mesh_terms", VNan);
   ("mesh_subheadings", VNan); ("mesh_major_topics", VNan);
   ("mesh_full_terms", VNan); ("keywords", VNan); ("publication_types", VNan);
   ("chemical_list", VNan); ("delete", VBool true); ("medline_ta", VNan);
   ("nlm_unique_id", VNan); ("issn_linking", VNan); ("country", VNan);
   ("references", VNan); ("issue", VNan); ("short_issue", VNan); ("volume", VNan);
   ("pages", VNan); ("languages", VNan); ("vernacular_title", VNan);
   ("coi_statement", VNan); ("completion_date", VNan);
   ("modification_date", VNan); ("history_dates", VNan); ("investigators", VNan);
   ("elocation_ids", VNan); ("databanks", VNan); ("personal_subject_names", VNan);
   ("supplementary_concepts", VNan); ("publication_status", VNan);
   ("grant_ids", VNan)].

(** The citation nodes of a tree: the container path first, the direct
    path when the first finds nothing. *)
Definition medline_citations (root : Element) : list Element :=
  match El.findall_desc root "MedlineCitationSet" ["MedlineCitation"] with
  | [] => El.findall_desc root "PubmedArticle" []
  | found => found
  end.

(** The PMID nodes of the delete notices. *)
Definition delete_citations (root : Element) : list Element :=
  El.findall_desc root "DeleteCitation" ["PMID"].

Definition delete_record (p : Element) : result dict :=
  t <- nonnull (El.text p) ;; Ok (delete_dict (PyStr.strip t)).

(** [parse_medline_xml] on the tree that [read_xml] returned, given by its
    root element. *)
Definition parse_medline_xml (root : Element) (cfg : Config) : result (list dict) :=
  article_list <- mapM (parse_article_info cfg) (medline_citations root) ;;
  dict_delete <- mapM delete_record (delete_citations root) ;;
  Ok (article_list ++ dict_delete)%list.

Definition parse_medline_grant_id (root : Element) : result (list dict) :=
  grant_id_list <- mapM parse_grant_id (medline_citations root) ;;
  Ok (concat grant_id_list).

End MedlineParser.

(* ================================================================== *)
(** ** The helpers of [pubmed_parser.utils] *)
(* ================================================================== *)

Module Utils.

(** Modelled from the spec: [stringify_children] of [pubmed_parser.utils],
    which is not among the sources.  The text of a node "with inline child
    markup flattened to text": the node's own text, then, for each child in
    document order, the flattened text of the child (markup nested at any
    depth included) and the text that follows the child; the text that
    follows the node itself comes last. *)
Fixpoint inner_text (node : Element) : string :=
  match node with
  | Elem _ _ text children _ =>
      PyStr.or_empty text
      ++ String.concat ""
           (map (fun c => inner_text c ++ PyStr.or_empty (El.tail c)) children)
  end.

Definition stringify_children (node : Element) : string :=
  inner_text node ++ PyStr.or_empty (El.tail node).

Fixpoint all_digits (s : string) : bool :=
  match s with
  | String c rest => PyStr.is_digit c && all_digits rest
  | EmptyString => true
  end.

(** The month names and their abbreviations. *)
Definition month_names : list (string * string) :=
  [("Jan", "01"); ("Feb", "02"); ("Mar", "03"); ("Apr", "04"); ("May", "05");
   ("Jun", "06"); ("Jul", "07"); ("Aug", "08"); ("Sep", "09"); ("Oct", "10");
   ("Nov", "11"); ("Dec", "12");
   ("January", "01"); ("February", "02"); ("March", "03"); ("April", "04");
   ("June", "06"); ("July", "07"); ("August", "08"); ("September", "09");
   ("October", "10"); ("November", "11"); ("December", "12")].

(** A run of digits without its leading zeros; one digit is kept. *)
Fixpoint drop_zeros (s : string) : string :=
  match s with
  | String c rest =>
      if Ascii.eqb c "0"%char
      then match rest with EmptyString => s | _ => drop_zeros rest end
      else s
  | EmptyString => s
  end.

(** Modelled from the spec: [month_or_day_formater] of [pubmed_parser.utils],
    which is not among the sources.  "Numeric strings passed through
    zero-padded": the number is written with two digits at least, so that
    ["7"] and ["007"] both give ["07"]; "month names/abbreviations mapped to
    two-digit numeric form"; any other token has no canonical form. *)
Definition month_or_day_formater (token : option string) : result (option string) :=
  match token with
  | None => Raise AttributeError
  | Some t =>
      let d := PyStr.strip t in
      if PyStr.all_digits d && negb (String.eqb d "")
      then let n := drop_zeros d in
           Ok (Some (if (String.length n <? 2)%nat then "0" ++ n else n))
      else match El.attrib_lookup d month_names with
           | Some mm => Ok (Some mm)
           | None => Ok None
           end
  end.

End Utils.

(* ================================================================== *)
(** ** What the specification says, in its own words *)
(* ================================================================== *)

Module Spec.



(** Deduplication by exact string, the first occurrence wins. *)
Fixpoint dedup_first (xs : list string) : list string :=
  match xs with
  | [] => []
  | x :: rest => x :: filter (fun y => negb (String.eqb x y)) (dedup_first rest)
  end.

(** The descriptor of a heading and its qualifiers. *)
Definition descriptor (heading : Element) : option Element :=
  El.find heading "DescriptorName".

Definition qualifiers (heading : Element) : list Element :=
  El.findall heading "QualifierName".

(** [UI:text] of a descriptor or of a qualifier. *)
Definition rendered (e : Element) : string :=
  ui e ++ ":" ++ PyStr.or_empty (El.text e).

(** The heading/qualifier entry of the full-terms view. *)
Definition full_term (d q : Element) : string :=
  ui d ++ "/" ++ ui q ++ ":" ++ PyStr.or_empty (El.text d)
  ++ "/" ++ PyStr.or_empty (El.text q) ++ star q.

(** The entries that one heading offers to the subheadings list. *)
Definition subheading_entries (heading : Element) : list string :=
  map rendered (qualifiers heading).

(** The full-term entries of one heading: the heading alone when it has no
    qualifier, one heading/qualifier entry per qualifier otherwise. *)
Definition full_term_entries (heading : Element) : list string :=
  match descriptor heading with
  | Some d =>
      match qualifiers heading with
      | [] => [rendered d ++ star d]
      | qs => map (full_term d) qs
      end
  | None => []
  end.

Definition term_entry (heading : Element) : list string :=
  match descriptor heading with
  | Some d => [rendered d]
  | None => []
  end.

(** An entry offered to the major-topics list: a qualifier entry is taken
    only when it is new, a heading entry is always taken. *)
Inductive major_kind : Type := FromQualifier | FromHeading.

Definition major_candidates (heading : Element) : list (major_kind * string) :=
  match descriptor heading with
  | Some d =>
      match qualifiers heading with
      | [] => if is_major d then [(FromHeading, rendered d)] else []
      | qs => map (fun q => (FromQualifier, rendered q)) (filter is_major qs)
      end
  | None => []
  end.

Definition take_major (acc : list string) (c : major_kind * string) : list string :=
  match fst c with
  | FromQualifier => append_new acc (snd c)
  | FromHeading => append_item acc (snd c)
  end.

(** No heading entry repeats an entry offered before it. *)
Fixpoint headings_fresh (seen : list string) (cs : list (major_kind * string)) : bool :=
  match cs with
  | [] => true
  | (k, s) :: rest =>
      match k with
      | FromHeading => negb (mem_str s seen)
      | FromQualifier => true
      end && headings_fresh (s :: seen) rest
  end.

(** A heading that [parse_mesh_info] can render: a descriptor with text and
    qualifiers with text. *)
Definition has_text (e : Element) : bool := negb (is_none (El.text e)).

Definition heading_wf (heading : Element) : bool :=
  match descriptor heading with
  | Some d => has_text d && forallb has_text (qualifiers heading)
  | None => false
  end.

(** [d] lies below [root]: it is a child of [root], or a child of an
    element that lies below [root]. *)
Inductive below (root : Element) : Element -> Prop :=
| below_child (c : Element) : In c (El.getchildren root) -> below root c
| below_deeper (c d : Element) :
    below root c -> In d (El.getchildren c) -> below root d.

(** A delete notice of a tree: a PMID child of a DeleteCitation element
    anywhere below the root. *)
Definition delete_notice (root p : Element) : Prop :=
  exists dc,
    below root dc /\ El.tag dc = "DeleteCitation" /\
    In p (El.getchildren dc) /\ El.tag p = "PMID".

(** A citation of a tree: a MedlineCitation child of a MedlineCitationSet
    anywhere below the root; in a tree without any of these, a PubmedArticle
    anywhere below the root. *)
Definition set_citation (root c : Element) : Prop :=
  exists container,
    below root container /\ El.tag container = "MedlineCitationSet" /\
    In c (El.getchildren container) /\ El.tag c = "MedlineCitation".

Definition citation_node (root c : Element) : Prop :=
  set_citation root c \/
  ((forall c', ~ set_citation root c') /\ below root c /\ El.tag c = "PubmedArticle").

(** The fields of a record next to pmid and delete. *)
Definition informational_fields : list string :=
  ["title"; "abstract"; "journal"; "authors"; "affiliations"; "pubdate"; "doi";
   "other_id"; "pmc"; "mesh_terms"; "mesh_subheadings"; "mesh_major_topics";
   "mesh_full_terms"; "keywords"; "publication_types"; "chemical_list";
   "medline_ta"; "nlm_unique_id"; "issn_linking"; "country"; "references";
   "issue"; "short_issue"; "volume"; "pages"; "languages"; "vernacular_title";
   "coi_statement"; "completion_date"; "modification_date"; "history_dates";
   "investigators"; "elocation_ids"; "databanks"; "personal_subject_names";
   "supplementary_concepts"; "publication_status"; "grant_ids"].

(** What the record of a delete notice has to look like: delete is true,
    pmid is the trimmed text of the notice, each of the other fields is
    there and holds nan, and the record holds nothing else. *)
Definition is_delete_record (p : Element) (d : dict) : Prop :=
  exists t,
    El.text p = Some t /\
    Dict.get d "delete" = VBool true /\
    Dict.get d "pmid" = VStr (PyStr.strip t) /\
    (forall k, In k informational_fields -> Dict.get d k = VNan) /\
    (forall k v, In (k, v) d -> k <> "pmid" -> k <> "delete" -> v = VNan).

End Spec.

(* ================================================================== *)
(** ** Sample trees *)
(* ================================================================== *)

Module Examples.

Definition leaf (t x : string) : Element := Elem t [] (Some x) [] None.
Definition node (t : string) (cs : list Element) : Element := Elem t [] None cs None.
Definition typed (t k v x : string) : Element := Elem t [(k, v)] (Some x) [] None.
(** [<t/>]: an element without text. *)
Definition bare (t : string) : Element := Elem t [] None [] None.

Definition journal : Element :=
  node "Journal"
       [node "JournalIssue"
             [leaf "Volume" "50"; leaf "Issue" "2";
              node "PubDate" [leaf "Year" "1979"; leaf "Month" "Oct"]];
        leaf "Title" "Journal of food protection"].

Definition article_with (extra : list Element) : Element :=
  node "Article"
       (journal :: leaf "ArticleTitle" " Monitoring of contamination. "
        :: node "Pagination" [leaf "MedlinePgn" "123-33"]
        :: leaf "Language" "eng" :: extra).

Definition medline_with (pmid : Element) (article_extra medline_extra : list Element)
  : Element :=
  node "MedlineCitation" (pmid :: article_with article_extra :: medline_extra).

Definition citation_with (pmid : Element) (article_extra medline_extra : list Element)
           (pubmed_data : list Element) : Element :=
  node "PubmedArticle" (medline_with pmid article_extra medline_extra :: pubmed_data).

Definition status : Element := leaf "PublicationStatus" "ppublish".

(** A citation on which every extractor succeeds. *)
Definition plain_citation : Element :=
  citation_with (leaf "PMID" "399296") [] [] [node "PubmedData" [status]].

(** A doi-typed ELocationID followed by a pii-typed one. *)
Definition doi_then_pii : Element :=
  citation_with (leaf "PMID" "1")
                [typed "ELocationID" "EIdType" "doi" "10.1000/x";
                 typed "ELocationID" "EIdType" "pii" "S1"]
                [] [node "PubmedData" [status]].

(** No doi-typed ELocationID, the DOI sits in the ArticleIdList. *)
Definition pii_and_article_id : Element :=
  citation_with (leaf "PMID" "1")
                [typed "ELocationID" "EIdType" "pii" "S1"] []
                [node "PubmedData"
                      [status;
                       node "ArticleIdList"
                            [typed "ArticleId" "IdType" "doi" "10.1000/x"]]].

(** No ELocationID at all, the DOI sits in the ArticleIdList. *)
Definition doi_in_article_ids : Element :=
  citation_with (leaf "PMID" "1") [] []
                [node "PubmedData"
                      [status;
                       node "ArticleIdList"
                            [typed "ArticleId" "IdType" "pii" "S1";
                             typed "ArticleId" "IdType" "doi" " 10.1000/x "]]].

(** [plain_citation] without its PubmedData element. *)
Definition citation_without_status : Element :=
  citation_with (leaf "PMID" "399296") [] [] [].

(** An OtherID element without text. *)
Definition medline_empty_other_id : Element :=
  medline_with (leaf "PMID" "399296") [] [bare "OtherID"].

Definition citation_empty_pmid : Element :=
  citation_with (bare "PMID") [] [] [node "PubmedData" [status]].

Definition grant_empty_country : Element :=
  node "Grant" [leaf "GrantID" "HL17731"; leaf "Acronym" "HL";
                leaf "Agency" "NHLBI NIH HHS"; bare "Country"].

Definition citation_grant_empty_country : Element :=
  citation_with (leaf "PMID" "399300")
                [node "GrantList" [grant_empty_country]] []
                [node "PubmedData" [status]].

(** The container shape: citations under a MedlineCitationSet. *)
Definition container_tree : Element :=
  node "Root"
       [node "MedlineCitationSet"
             [medline_with (leaf "PMID" "399296") [] []]].

(** The direct shape, with two delete notices. *)
Definition direct_tree : Element :=
  node "PubmedArticleSet"
       [plain_citation;
        node "DeleteCitation" [leaf "PMID" " 12 "; leaf "PMID" "13"]].



(** A doi-typed ELocationID without text followed by a pii-typed one. *)
Definition bare_doi_then_pii : Element :=
  citation_with (leaf "PMID" "1")
                [Elem "ELocationID" [("EIdType", "doi")] None [] None;
                 typed "ELocationID" "EIdType" "pii" "S1"]
                [] [node "PubmedData" [status]].

Definition descriptor_name (uid major text : string) : Element :=
  Elem "DescriptorName" [("UI", uid); ("MajorTopicYN", major)] (Some text) [] None.

Definition qualifier_name (uid major text : string) : Element :=
  Elem "QualifierName" [("UI", uid); ("MajorTopicYN", major)] (Some text) [] None.

(** The same major heading twice, neither with a qualifier. *)
Definition repeated_major_mesh : Element :=
  node "MeshHeadingList"
       [node "MeshHeading" [descriptor_name "D005455" "Y" "Fluorescent Antibody Technique"];
        node "MeshHeading" [descriptor_name "D005455" "Y" "Fluorescent Antibody Technique"]].

Definition sample_mesh : Element :=
  node "MeshHeadingList"
       [node "MeshHeading" [descriptor_name "D000818" "N" "Animals"];
        node "MeshHeading" [descriptor_name "D000906" "N" "Antibodies";
                            qualifier_name "Q000032" "Y" "analysis";
                            qualifier_name "Q000276" "N" "immunology"];
        node "MeshHeading" [descriptor_name "D004283" "N" "Dog Diseases";
                            qualifier_name "Q000276" "Y" "immunology"];
        node "MeshHeading" [descriptor_name "D005455" "Y" "Fluorescent Antibody Technique"]].

Definition medline_with_mesh : Element :=
  medline_with (leaf "PMID" "399298") [] [sample_mesh].

Definition medline_with_subject : Element :=
  medline_with (leaf "PMID" "1") []
               [node "PersonalNameSubjectList"
                     [node "PersonalNameSubject"
                           [leaf "LastName" "Koch"; leaf "ForeName" "Robert";
                            leaf "Initials" "R"]]].

Definition citation_with_databank : Element :=
  citation_with (leaf "PMID" "1")
                [node "DataBankList"
                      [node "DataBank"
                            [leaf "DataBankName" "GENBANK";
                             node "AccessionNumberList"
                                  [leaf "AccessionNumber" "AF000001"]]]]
                [] [node "PubmedData" [status]].

(** A DataBank without accession numbers. *)
Definition databank_without_accession : Element :=
  node "DataBank" [leaf "DataBankName" "GENBANK"].

Definition citation_databank_without_accession : Element :=
  citation_with (leaf "PMID" "1")
                [node "DataBankList" [databank_without_accession]]
                [] [node "PubmedData" [status]].

(** A DataBank with an accession number, after an ELocationID without text. *)
Definition citation_databank_bare_elocation : Element :=
  citation_with (leaf "PMID" "1")
                [Elem "ELocationID" [("EIdType", "pii")] None [] None;
                 node "DataBankList"
                      [node "DataBank"
                            [leaf "DataBankName" "GENBANK";
                             node "AccessionNumberList"
                                  [leaf "AccessionNumber" "AF000001"]]]]
                [] [node "PubmedData" [status]].

(** The record that the assembler returns for [plain_citation] under the
    default configuration. *)
Definition plain_record : dict :=
  Eval vm_compute in
    match parse_article_info Utils.stringify_children Utils.month_or_day_formater
                             default_config plain_citation with
    | Ok r => r
    | Raise _ => []
    end.




Definition medline_date_no_year : Element :=
  node "PubDate" [leaf "MedlineDate" "no year here"].

End Examples.

(* ================================================================== *)
(** ** The heading terms alone, and the renderings of the joined form *)
(* ================================================================== *)

(** [parse_mesh_terms]: the [UI:text] entries of the headings, joined. *)
Definition parse_mesh_terms (medline : Element) : result string :=
  match El.find medline "MeshHeadingList" with
  | Some mesh =>
      mesh_terms_list <-
        mapM (fun m =>
                d <- nonnull (El.find m "DescriptorName") ;;
                cat [Some (ui d); Some ":"; El.text d])
             (El.getchildren mesh) ;;
      Ok (PyStr.join "; " mesh_terms_list)
  | None => Ok ""
  end.

Module Views.

(** The text of one row of the joined form: the fields between bars. *)
Definition row_text (vals : list pyval) : string :=
  PyStr.join "|" (map str_of vals).

(** The joined form of a list of sub-records. *)
Definition rows_text (row : dict -> list pyval) (records : list dict) : string :=
  PyStr.join ";" (map (fun r => row_text (row r)) records).

Definition all_strings (row : dict -> list pyval) (records : list dict) : bool :=
  forallb (fun r => forallb is_str (row r)) records.

(** The rows that [parse_article_info] renders. *)
Definition defaulted (keys : list string) (d : dict) : list pyval :=
  map (fun k => Dict.get_default d k (VStr "")) keys.

Definition plain (keys : list string) (d : dict) : list pyval :=
  map (Dict.get d) keys.

(** The value of a switchable field: the sub-records in list mode, their
    joined form in string mode. *)
Definition field_view (flag : bool) (row : dict -> list pyval) (records : list dict)
  : pyval :=
  if flag then as_list records else VStr (rows_text row records).

Definition person_keys : list string := ["lastname"; "forename"; "initials"; "suffix"].

Definition author_keys : list string :=
  ["lastname"; "forename"; "initials"; "suffix"; "author_type";
   "identifier_type"; "identifier"; "corporate"].

Definition grant_keys : list string := ["grant_id"; "grant_acronym"; "country"; "agency"].

Definition concept_keys : list string := ["type"; "UI"; "supplementary_concept"].

(** The keys of the literal dictionary of [parse_article_info], in order,
    and the keys that the two updates add. *)
Definition literal_keys : list string :=
  ["title"; "issue"; "short_issue"; "volume"; "pages"; "abstract"; "journal";
   "authors"; "pubdate"; "pmid"; "mesh_terms"; "mesh_subheadings";
   "mesh_major_topics"; "mesh_full_terms"; "publication_types"; "chemical_list";
   "keywords"; "doi"; "references"; "delete"; "languages"; "vernacular_title";
   "coi_statement"; "completion_date"; "modification_date"; "history_dates";
   "investigators"; "elocation_ids"; "databanks"; "personal_subject_names";
   "supplementary_concepts"; "publication_status"; "grant_ids"].

Definition update_keys : list string :=
  ["pmc"; "other_id"; "medline_ta"; "nlm_unique_id"; "issn_linking"; "country"].

(** An ELocationID typed "doi", and the entry of an ELocationID. *)
Definition doi_typed (e : Element) : bool :=
  match El.get e "EIdType" with
  | Some t => String.eqb t "doi"
  | None => false
  end.

Definition elocation_entry (e : Element) : dict :=
  [("type", of_text (El.get e "EIdType"));
   ("ELocationID", VStr (PyStr.strip (PyStr.or_empty (El.text e))))].

(** The ArticleIdList entry typed "doi". *)
Definition article_id_doi (pubmed_article : Element) : option Element :=
  match El.find_path pubmed_article ["PubmedData"; "ArticleIdList"] with
  | Some article_ids => El.find_attr article_ids "ArticleId" "IdType" "doi"
  | None => None
  end.

(** The ELocationID children of the article of a citation. *)
Definition elocations (article : Element) : list Element :=
  El.findall article "ELocationID".

(** The texts of the OtherID children. *)
Definition other_id_texts (medline : Element) : list string :=
  map (fun oid => PyStr.or_empty (El.text oid)) (El.findall medline "OtherID").

Definition is_pmc (t : string) : bool := PyStr.contains "PMC" t.

(** A chemical that [parse_chemical_list] can render, and its rendering. *)
Definition chemical_wf (chemical : Element) : bool :=
  match El.find chemical "RegistryNumber", El.find chemical "NameOfSubstance" with
  | Some rn, Some sn => Spec.has_text rn && Spec.has_text sn
  | _, _ => false
  end.

Definition chemical_text (chemical : Element) : string :=
  match El.find chemical "RegistryNumber", El.find chemical "NameOfSubstance" with
  | Some rn, Some sn =>
      PyStr.strip (PyStr.or_empty (El.text rn)) ++ ":" ++ ui sn ++ ":"
      ++ PyStr.strip (PyStr.or_empty (El.text sn))
  | _, _ => ""
  end.

Definition chemicals (medline : Element) : list Element :=
  match El.find medline "ChemicalList" with
  | Some l => El.findall l "Chemical"
  | None => []
  end.

Definition publication_type_elements (medline : Element) : list Element :=
  match El.find_path medline ["Article"; "PublicationTypeList"] with
  | Some l => El.findall l "PublicationType"
  | None => []
  end.

(** The PubMedPubDate elements of a citation. *)
Definition history_elements (pubmed_article : Element) : list Element :=
  match El.find_path pubmed_article ["PubmedData"; "History"] with
  | Some h => El.findall h "PubMedPubDate"
  | None => []
  end.

(** The Grant elements of a citation. *)
Definition grant_elements (article : Element) : list Element :=
  match El.find article "GrantList" with
  | Some grants => El.getchildren grants
  | None => []
  end.

(** What a grant record holds for the child [name] of its Grant element:
    the text of the child, [None] for a child without text, the empty string
    when there is no such child. *)
Definition child_text (grant : Element) (name : string) : pyval :=
  match El.find grant name with
  | Some c => match El.text c with Some t => VStr t | None => VNone end
  | None => VStr ""
  end.

(** An ELocationID that the loop of [parse_doi] gets past: it is not typed
    "doi", or it has text.  The value that the loop computes for it. *)
Definition doi_readable (e : Element) : bool :=
  negb (doi_typed e) || Spec.has_text e.

Definition doi_value (e : Element) : string :=
  if doi_typed e then PyStr.strip (PyStr.or_empty (El.text e)) else "".

(** The name of a DataBank as an object: the DataBankName element, [None]
    without one. *)
Definition name_object (databank_xml : Element) : pyval :=
  match El.find databank_xml "DataBankName" with
  | Some name => VElem name
  | None => VNone
  end.

(** The AccessionNumber elements of a DataBank. *)
Definition accession_elements (databank_xml : Element) : list Element :=
  match El.find databank_xml "AccessionNumberList" with
  | Some l => El.findall l "AccessionNumber"
  | None => []
  end.

Definition has_accession (databank_xml : Element) : bool :=
  match accession_elements databank_xml with
  | [] => false
  | _ :: _ => true
  end.

Definition accession_texts (databank_xml : Element) : list pyval :=
  map (fun a => match El.text a with Some t => VStr t | None => VNone end)
      (accession_elements databank_xml).

End Views.

(* ================================================================== *)
(** ** More sample trees *)
(* ================================================================== *)

Module MoreExamples.

Import Examples.

Definition attributed (t : string) (attrs : list (string * string)) (x : string) : Element :=
  Elem t attrs (Some x) [] None.

Definition sample_author : Element :=
  node "Author"
       [leaf "LastName" "Koch"; leaf "ForeName" " Robert "; leaf "Initials" "R";
        node "AffiliationInfo" [leaf "Affiliation" " Institute of Hygiene, Berlin "]].

Definition sample_grant : Element :=
  node "Grant" [leaf "GrantID" "HL17731"; leaf "Acronym" "HL";
                leaf "Agency" "NHLBI NIH HHS"; leaf "Country" "United States"].

(** A citation that uses most of the optional elements. *)
Definition rich_citation : Element :=
  node "PubmedArticle"
       [node "MedlineCitation"
             [leaf "PMID" "399300";
              node "Article"
                   [journal;
                    leaf "ArticleTitle" "Monitoring of contamination.";
                    leaf "Language" "eng"; leaf "Language" "ger";
                    typed "ELocationID" "EIdType" "pii" "S1";
                    node "AuthorList" [sample_author];
                    node "GrantList" [sample_grant; node "Grant" [leaf "GrantID" "AI00001"]];
                    node "PublicationTypeList"
                         [attributed "PublicationType" [("UI", "D016428")] " Journal Article "]];
              node "ChemicalList"
                   [node "Chemical"
                         [leaf "RegistryNumber" "0";
                          attributed "NameOfSubstance" [("UI", "D000906")] "Antibodies"]];
              node "SupplMeshList"
                   [attributed "SupplMeshName" [("Type", "Disease"); ("UI", "C000001")]
                               "Sample disease"];
              node "InvestigatorList"
                   [node "Investigator" [leaf "LastName" "Pasteur"; leaf "ForeName" "Louis"]];
              leaf "OtherID" "PMC100"; leaf "OtherID" "NIHMS1"; leaf "OtherID" "PMC200";
              sample_mesh];
        node "PubmedData"
             [node "History"
                   [Elem "PubMedPubDate" [("PubStatus", "pubmed")] None
                         [leaf "Year" "1979"; leaf "Month" "10"; leaf "Day" "1"] None;
                    Elem "PubMedPubDate" [("PubStatus", "medline")] None
                         [leaf "Year" "1980"] None];
              status;
              node "ArticleIdList" [typed "ArticleId" "IdType" "doi" " 10.1000/x "]]].

Definition rich_medline : Element :=
  match El.find rich_citation "MedlineCitation" with
  | Some m => m
  | None => rich_citation
  end.

Definition rich_article : Element :=
  match El.find rich_medline "Article" with
  | Some a => a
  | None => rich_citation
  end.

(** The record of [rich_citation] under the default configuration. *)
Definition rich_record : dict :=
  Eval vm_compute in
    match parse_article_info Utils.stringify_children Utils.month_or_day_formater
                             default_config rich_citation with
    | Ok r => r
    | Raise _ => []
    end.

(** What the extractors return on the samples. *)
Definition sample_mesh_info : dict :=
  Eval vm_compute in
    match parse_mesh_info medline_with_mesh with
    | Ok d => d
    | Raise _ => []
    end.

(** The old format: the container is the root. *)
Definition container_root_tree : Element :=
  node "MedlineCitationSet"
       [medline_with (leaf "PMID" "399296") [] [];
        node "DeleteCitation" [leaf "PMID" "12"]].

Definition rich_tree : Element :=
  node "PubmedArticleSet"
       [rich_citation; plain_citation; node "DeleteCitation" [leaf "PMID" " 12 "]].

Definition rich_tree_grants : list dict :=
  Eval vm_compute in
    match parse_medline_grant_id rich_tree with
    | Ok l => l
    | Raise _ => []
    end.

Definition direct_tree_output : list dict :=
  Eval vm_compute in
    match parse_medline_xml Utils.stringify_children Utils.month_or_day_formater
                            direct_tree default_config with
    | Ok l => l
    | Raise _ => []
    end.

End MoreExamples.

(* ================================================================== *)
(** ** General facts: the error monad and dictionaries *)
(* ================================================================== *)

Lemma bind_ok (A B : Type) (m : result A) (f : A -> result B) (r : B) :
  bind m f = Ok r -> exists a, m = Ok a /\ f a = Ok r.
Proof.
  destruct m as [a|e]; simpl; intros H; [eauto | discriminate].
Qed.

Lemma bind_raise (A B : Type) (m : result A) (f : A -> result B) (e : exn) :
  m = Raise e -> bind m f = Raise e.
Proof. intros ->; reflexivity. Qed.

Lemma bind_raise_inv (A B : Type) (m : result A) (f : A -> result B) (e : exn) :
  bind m f = Raise e -> m = Raise e \/ exists a, m = Ok a /\ f a = Raise e.
Proof. destruct m as [a|e']; simpl; intros H; [right; eauto | left; congruence]. Qed.

(** Peels the outermost binding of a computation that is known to return. *)
Ltac bind_inv H :=
  let a := fresh "a" in
  let E := fresh "E" in
  apply bind_ok in H; destruct H as (a & E & H); cbv beta zeta in H.

Lemma mapM_ok_Forall2 (A B : Type) (f : A -> result B) (xs : list A) (ys : list B) :
  mapM f xs = Ok ys -> Forall2 (fun x y => f x = Ok y) xs ys.
Proof.
  revert ys; induction xs as [|x xs IH]; simpl; intros ys H.
  - injection H as <-; constructor.
  - bind_inv H. bind_inv H. injection H as <-. constructor; auto.
Qed.

Lemma Forall2_mapM_ok (A B : Type) (f : A -> result B) (xs : list A) (ys : list B) :
  Forall2 (fun x y => f x = Ok y) xs ys -> mapM f xs = Ok ys.
Proof.
  induction 1 as [|x y xs ys Hxy _ IH]; simpl; [reflexivity|].
  rewrite Hxy; simpl; rewrite IH; reflexivity.
Qed.

Lemma mapM_total (A B : Type) (f : A -> result B) (g : A -> B) (xs : list A) :
  (forall x, In x xs -> f x = Ok (g x)) -> mapM f xs = Ok (map g xs).
Proof.
  induction xs as [|x xs IH]; simpl; intros H; [reflexivity|].
  rewrite (H x (or_introl eq_refl)); simpl.
  rewrite IH by (intros; apply H; now right). reflexivity.
Qed.

(** A loop raises what its body raises. *)
Lemma mapM_raise (A B : Type) (f : A -> result B) (e0 : exn) (xs : list A) (e : exn) :
  (forall x e', f x = Raise e' -> e' = e0) -> mapM f xs = Raise e -> e = e0.
Proof.
  intros Hf. induction xs as [|x xs IH]; simpl; [discriminate|].
  destruct (f x) as [y|e'] eqn:E; simpl.
  - destruct (mapM f xs); simpl; [discriminate|]. intros H; injection H as <-. now apply IH.
  - intros H; injection H as <-. exact (Hf _ _ E).
Qed.

Lemma foldM_raise (A S : Type) (body : S -> A -> result S) (e0 : exn) (xs : list A)
      (acc : S) (e : exn) :
  (forall s x e', body s x = Raise e' -> e' = e0) -> foldM body acc xs = Raise e -> e = e0.
Proof.
  intros Hb. revert acc; induction xs as [|x xs IH]; simpl; intros acc; [discriminate|].
  destruct (body acc x) as [s|e'] eqn:E; simpl; [apply IH|].
  intros H; injection H as <-. exact (Hb _ _ _ E).
Qed.

(** Adding and joining values raise nothing but a [TypeError]. *)
Lemma py_add_raise (a b : pyval) (e : exn) : py_add a b = Raise e -> e = TypeError.
Proof. destruct a, b; simpl; congruence. Qed.

Lemma py_join_raise (sep : string) (items : list pyval) (e : exn) :
  py_join sep items = Raise e -> e = TypeError.
Proof.
  unfold py_join. intros H. apply bind_raise_inv in H as [H | (a & _ & H)]; [|discriminate].
  eapply mapM_raise; [|exact H].
  intros [] e'; simpl; congruence.
Qed.

Lemma joined_rows_raise (row : dict -> list pyval) (records : list dict) (e : exn) :
  joined_rows row records = Raise e -> e = TypeError.
Proof.
  unfold joined_rows. intros H. apply bind_raise_inv in H as [H | (a & _ & H)].
  - eapply mapM_raise; [|exact H].
    intros r e'. unfold bar_row, py_sum. destruct (row r); [discriminate|].
    simpl. intros Hf. eapply foldM_raise; [|exact Hf]. intros; eapply py_add_raise; eauto.
  - eapply py_join_raise; eauto.
Qed.

Lemma joined_stage_raise (flag : bool) (l : pyval) (row : dict -> list pyval)
      (records : list dict) (e : exn) :
  (if flag then Ok l else a <- joined_rows row records ;; Ok (VStr a)) = Raise e ->
  e = TypeError.
Proof.
  destruct flag; [discriminate|]. intros H.
  apply bind_raise_inv in H as [H | (a & _ & H)]; [|discriminate].
  eapply joined_rows_raise; eauto.
Qed.

Lemma get_set (d : dict) (k : string) (v : pyval) (k' : string) :
  Dict.get (Dict.set d k v) k' = if String.eqb k k' then v else Dict.get d k'.
Proof.
  induction d as [|[k0 v0] d IH]; simpl; [reflexivity|].
  destruct (String.eqb k0 k) eqn:E0; simpl.
  - apply String.eqb_eq in E0; subst k0.
    destruct (String.eqb k k'); reflexivity.
  - rewrite IH. destruct (String.eqb k0 k') eqn:E1; [|reflexivity].
    apply String.eqb_eq in E1; subst k'. now rewrite String.eqb_sym, E0.
Qed.

Lemma get_update_other (o d : dict) (k : string) :
  ~ In k (Dict.keys o) -> Dict.get (Dict.update d o) k = Dict.get d k.
Proof.
  unfold Dict.update, Dict.keys.
  revert d; induction o as [|[k0 v0] o IH]; simpl; intros d H; [reflexivity|].
  rewrite IH by tauto. rewrite get_set.
  destruct (String.eqb k0 k) eqn:E; [|reflexivity].
  apply String.eqb_eq in E; tauto.
Qed.

Lemma nonnull_ok (A : Type) (o : option A) (a : A) : nonnull o = Ok a -> o = Some a.
Proof. destruct o; simpl; congruence. Qed.

Lemma foldM_app (A S : Type) (body : S -> A -> result S) (xs ys : list A) (acc : S) :
  foldM body acc (xs ++ ys) = (acc' <- foldM body acc xs ;; foldM body acc' ys).
Proof.
  revert acc; induction xs as [|x xs IH]; simpl; intros acc; [reflexivity|].
  destruct (body acc x); simpl; [apply IH | reflexivity].
Qed.

(** *** Loops over every element of a list *)


Lemma Forall2_in_left (A B : Type) (R : A -> B -> Prop) (xs : list A) (ys : list B) :
  Forall2 R xs ys -> forall x, In x xs -> exists y, In y ys /\ R x y.
Proof.
  induction 1 as [|x y xs ys Hxy _ IH]; intros x' Hin; [destruct Hin|].
  destruct Hin as [<-|Hin].
  - exists y; split; [now left | exact Hxy].
  - destruct (IH _ Hin) as (y' & Hy' & Hr). exists y'; split; [now right | exact Hr].
Qed.

Lemma Forall2_in_right (A B : Type) (R : A -> B -> Prop) (xs : list A) (ys : list B) :
  Forall2 R xs ys -> forall y, In y ys -> exists x, In x xs /\ R x y.
Proof.
  induction 1 as [|x y xs ys Hxy _ IH]; intros y' Hin; [destruct Hin|].
  destruct Hin as [<-|Hin].
  - exists x; split; [now left | exact Hxy].
  - destruct (IH _ Hin) as (x' & Hx' & Hr). exists x'; split; [now right | exact Hr].
Qed.

(** *** The element tree *)

Lemma Element_induction (P : Element -> Prop) :
  (forall t a x cs tl, Forall P cs -> P (Elem t a x cs tl)) -> forall e, P e.
Proof.
  intros H. fix IH 1. intros [t a x cs tl]. apply H.
  revert cs. fix IHcs 1. intros [|c cs]; constructor; [apply IH | apply IHcs].
Qed.

Lemma below_trans (root c d : Element) :
  Spec.below root c -> Spec.below c d -> Spec.below root d.
Proof.
  intros Hc Hd. induction Hd as [d Hd | d d' _ IH Hd'].
  - eapply Spec.below_deeper; [exact Hc | exact Hd].
  - eapply Spec.below_deeper; [exact IH | exact Hd'].
Qed.

(** [iterdescendants] lists the elements below the root, and all of them. *)
Lemma descendants_below (root d : Element) :
  In d (El.iterdescendants root) -> Spec.below root d.
Proof.
  revert d. induction root as [t a x cs tl IH] using Element_induction.
  intros d Hd. simpl in Hd. apply in_flat_map in Hd. destruct Hd as (c & Hc & Hd).
  assert (Hbc : Spec.below (Elem t a x cs tl) c) by (apply Spec.below_child; exact Hc).
  destruct Hd as [<-|Hd]; [exact Hbc|].
  apply (below_trans Hbc). rewrite Forall_forall in IH. exact (IH c Hc d Hd).
Qed.

Lemma descendants_child (root c d : Element) :
  In c (El.iterdescendants root) -> In d (El.getchildren c) ->
  In d (El.iterdescendants root).
Proof.
  revert c d. induction root as [t a x cs tl IH] using Element_induction.
  intros c d Hc Hd. simpl in Hc |- *. apply in_flat_map in Hc.
  destruct Hc as (c0 & Hc0 & Hc). apply in_flat_map. exists c0; split; [exact Hc0|].
  right. destruct Hc as [<-|Hc].
  - destruct c0 as [t0 a0 x0 cs0 tl0]. simpl in Hd |- *.
    apply in_flat_map. exists d; split; [exact Hd | now left].
  - rewrite Forall_forall in IH. exact (IH c0 Hc0 c d Hc Hd).
Qed.

Lemma below_descendants (root d : Element) :
  Spec.below root d -> In d (El.iterdescendants root).
Proof.
  induction 1 as [c Hc | c d _ IH Hd].
  - destruct root as [t a x cs tl]. simpl in Hc |- *.
    apply in_flat_map. exists c; split; [exact Hc | now left].
  - eapply descendants_child; [exact IH | exact Hd].
Qed.

(** [root.findall(".//a/b")] and [root.findall(".//a")] by what they find. *)
Lemma findall_desc_child (root : Element) (a b : string) (p : Element) :
  In p (El.findall_desc root a [b]) <->
  exists e, Spec.below root e /\ El.tag e = a /\ In p (El.getchildren e) /\ El.tag p = b.
Proof.
  unfold El.findall_desc. cbn [El.findall_path]. rewrite in_flat_map. split.
  - intros (e & He & Hp). apply filter_In in He. destruct He as (He & Ht).
    unfold El.findall in Hp. apply filter_In in Hp. destruct Hp as (Hp & Hb).
    exists e. repeat split; [now apply descendants_below | now apply String.eqb_eq
                             | exact Hp | now apply String.eqb_eq].
  - intros (e & He & Ht & Hp & Hb). exists e. split.
    + apply filter_In. split; [now apply below_descendants | now apply String.eqb_eq].
    + unfold El.findall. apply filter_In. split; [exact Hp | now apply String.eqb_eq].
Qed.

Lemma findall_desc_self (root : Element) (a : string) (p : Element) :
  In p (El.findall_desc root a []) <-> Spec.below root p /\ El.tag p = a.
Proof.
  unfold El.findall_desc. cbn [El.findall_path]. rewrite filter_In. split.
  - intros (Hp & Ht). split; [now apply descendants_below | now apply String.eqb_eq].
  - intros (Hp & Ht). split; [now apply below_descendants | now apply String.eqb_eq].
Qed.

(** The two searches of the drivers find the delete notices and the
    citations of the tree, and nothing else. *)
Lemma delete_citations_spec (root p : Element) :
  In p (delete_citations root) <-> Spec.delete_notice root p.
Proof. apply findall_desc_child. Qed.

Lemma medline_citations_spec (root c : Element) :
  In c (medline_citations root) <-> Spec.citation_node root c.
Proof.
  unfold medline_citations, Spec.citation_node.
  assert (Hset : forall c', In c' (El.findall_desc root "MedlineCitationSet"
                                                   ["MedlineCitation"])
                            <-> Spec.set_citation root c')
    by (intros c'; apply findall_desc_child).
  destruct (El.findall_desc root "MedlineCitationSet" ["MedlineCitation"])
    as [|x found] eqn:E.
  - rewrite findall_desc_self. split.
    + intros H. right. split; [|exact H]. intros c' Hc'. now apply Hset in Hc'.
    + intros [H | (_ & H)]; [now apply Hset in H | exact H].
  - split.
    + intros H. left. now apply Hset.
    + intros [H | (Hno & _)]; [now apply Hset|].
      elim (Hno x). apply Hset. now left.
Qed.

(* ================================================================== *)
(** ** Properties of the extractors *)
(* ================================================================== *)

Section Properties.

Variable stringify_children : Element -> string.
Variable month_or_day_formater : option string -> result (option string).

Local Notation "'article_info'" := (parse_article_info stringify_children month_or_day_formater).
Local Notation "'medline_xml'" := (parse_medline_xml stringify_children month_or_day_formater).
Local Notation "'date_info'" := (get_date_info month_or_day_formater).

(** *** The shape of a record that [parse_article_info] returns *)

Lemma parse_other_id_keys (medline : Element) (other : dict) :
  parse_other_id medline = Ok other -> Dict.keys other = ["pmc"; "other_id"].
Proof.
  unfold parse_other_id; intros H. bind_inv H. destruct a as [pmc ids].
  injection H as <-. reflexivity.
Qed.

Lemma parse_journal_info_keys (medline : Element) :
  Dict.keys (parse_journal_info medline)
  = ["medline_ta"; "nlm_unique_id"; "issn_linking"; "country"].
Proof.
  unfold parse_journal_info.
  destruct (El.find medline "MedlineJournalInfo"); reflexivity.
Qed.

(** Every stage of the assembler has to succeed for a record to come out;
    the record is the literal dictionary, updated with the OtherID and the
    journal-info entries. *)
Lemma parse_article_info_inv (cfg : Config) (pubmed_article : Element) (r : dict) :
  article_info cfg pubmed_article = Ok r ->
  exists medline article base other,
    El.find pubmed_article "MedlineCitation" = Some medline /\
    El.find medline "Article" = Some article /\
    parse_other_id medline = Ok other /\
    r = Dict.update (Dict.update base other) (parse_journal_info medline) /\
    Dict.get base "issue"
    = VStr (compose_issue (text_at article ["Journal"; "JournalIssue"; "Volume"])
                          (text_at article ["Journal"; "JournalIssue"; "Issue"])) /\
    Dict.get base "short_issue"
    = VStr (text_at article ["Journal"; "JournalIssue"; "Issue"]) /\
    Dict.get base "volume"
    = VStr (text_at article ["Journal"; "JournalIssue"; "Volume"]) /\
    Dict.get base "delete" = VBool false.
Proof.
  unfold parse_article_info; intros H.
  bind_inv H. apply nonnull_ok in E. rename a into medline.
  bind_inv H. apply nonnull_ok in E0. rename a into article.
  do 26 bind_inv H.
  injection H as <-.
  match goal with Ho : parse_other_id medline = Ok ?o |- _ =>
    exists medline, article; eexists; exists o
  end.
  do 3 (split; [assumption|]).
  split; [reflexivity|].
  do 3 (split; [destruct (author_list cfg); reflexivity|]).
  destruct (author_list cfg); reflexivity.
Qed.

(** The entries written by the two updates leave the other keys alone. *)
Lemma get_after_updates (base other : dict) (medline : Element) (k : string) :
  parse_other_id medline = Ok other ->
  ~ In k ["pmc"; "other_id"; "medline_ta"; "nlm_unique_id"; "issn_linking"; "country"] ->
  Dict.get (Dict.update (Dict.update base other) (parse_journal_info medline)) k
  = Dict.get base k.
Proof.
  intros Ho Hk.
  rewrite get_update_other by (rewrite parse_journal_info_keys; simpl in *; tauto).
  apply get_update_other.
  rewrite (parse_other_id_keys _ Ho); simpl in *; tauto.
Qed.

Ltac other_key := simpl; intuition discriminate.

(** C8. In every record that the assembler returns, the issue field is
    [volume(issue number)] when the volume is not empty and the empty string
    when it is, whatever the issue number; short_issue is the raw issue
    number, whatever the volume. *)
Theorem issue_composition (cfg : Config) (pubmed_article medline article : Element)
        (r : dict) :
  El.find pubmed_article "MedlineCitation" = Some medline ->
  El.find medline "Article" = Some article ->
  article_info cfg pubmed_article = Ok r ->
  let volume := text_at article ["Journal"; "JournalIssue"; "Volume"] in
  let issue_number := text_at article ["Journal"; "JournalIssue"; "Issue"] in
  Dict.get r "issue"
  = VStr (if String.eqb volume "" then "" else volume ++ "(" ++ issue_number ++ ")")
  /\ Dict.get r "short_issue" = VStr issue_number
  /\ Dict.get r "volume" = VStr volume.
Proof.
  intros Hm Ha H.
  destruct (parse_article_info_inv _ _ H)
    as (m & a & base & other & Hm' & Ha' & Ho & -> & Hi & Hs & Hv & _).
  rewrite Hm in Hm'; injection Hm' as <-.
  rewrite Ha in Ha'; injection Ha' as <-.
  cbv zeta. rewrite !(get_after_updates _ _ Ho) by other_key.
  rewrite Hi, Hs, Hv. unfold compose_issue. auto.
Qed.

(** *** Databanks *)

Lemma of_elem_not_str (o : option Element) : is_str (of_elem o) = false.
Proof. destruct o; reflexivity. Qed.

Lemma py_add_elem (o : option Element) (v : pyval) : py_add (of_elem o) v = Raise TypeError.
Proof. destruct o; reflexivity. Qed.

Lemma py_join_non_str (sep : string) (items : list pyval) :
  has_non_str items = true -> py_join sep items = Raise TypeError.
Proof.
  unfold py_join, has_non_str.
  induction items as [|v items IH]; simpl; [discriminate|].
  destruct v; simpl; try reflexivity.
  intros H. destruct (mapM as_str items) as [parts|e]; simpl in *.
  - specialize (IH H); discriminate.
  - specialize (IH H). injection IH as ->. reflexivity.
Qed.

Lemma has_non_str_append (items : list pyval) (v : pyval) :
  is_str v = false -> has_non_str (append_item items v) = true.
Proof.
  unfold has_non_str, append_item; intros H.
  rewrite existsb_app; simpl. rewrite H; simpl. apply orb_true_r.
Qed.

(** One databank either stops the loop with a [TypeError] (it has an
    accession number to add to the name) or leaves its name element in the
    list of terms. *)
Lemma databank_terms_cases (info : list pyval) (x : Element) :
  databank_terms info (databank_dict x) = Raise TypeError \/
  databank_terms info (databank_dict x)
  = Ok (append_item info (of_elem (El.find x "DataBankName"))).
Proof.
  unfold databank_terms, databank_dict.
  cbn [Dict.get String.eqb Ascii.eqb Bool.eqb py_len bind].
  match goal with |- context [List.length ?l] => destruct l as [|a l'] end;
    simpl; [right; reflexivity|left].
  rewrite py_add_elem; reflexivity.
Qed.

Lemma foldM_databank_terms (xs : list Element) (info : list pyval) :
  xs <> [] \/ has_non_str info = true ->
  foldM databank_terms info (map databank_dict xs) = Raise TypeError \/
  exists info', foldM databank_terms info (map databank_dict xs) = Ok info'
                /\ has_non_str info' = true.
Proof.
  revert info; induction xs as [|x xs IH]; simpl; intros info H.
  - right; exists info; split; [reflexivity|]. destruct H; congruence.
  - destruct (databank_terms_cases info x) as [-> | ->]; simpl; [now left|].
    apply IH. right. apply has_non_str_append, of_elem_not_str.
Qed.

Lemma databanks_joined_raises (xs : list Element) :
  xs <> [] -> databanks_joined (map databank_dict xs) = Raise TypeError.
Proof.
  intros H. unfold databanks_joined.
  destruct (@foldM_databank_terms xs [] (or_introl H)) as [-> | (info & -> & Hn)];
    simpl; [reflexivity|].
  now apply py_join_non_str.
Qed.

Lemma findall_truthy (e : Element) (name : string) :
  El.findall e name <> [] -> El.truthy (Some e) = true.
Proof.
  unfold El.findall, El.truthy. destruct (El.getchildren e); simpl; congruence.
Qed.

(** The name of a sub-record is the element itself and the accession
    numbers are the texts of the AccessionNumber elements. *)
Lemma databank_dict_name (x : Element) :
  Dict.get (databank_dict x) "name" = Views.name_object x.
Proof.
  unfold databank_dict, Views.name_object. simpl.
  destruct (El.find x "DataBankName"); reflexivity.
Qed.

Lemma databank_dict_accessions (x : Element) :
  Dict.get (databank_dict x) "accession_numbers" = VList (Views.accession_texts x).
Proof.
  unfold databank_dict, Views.accession_texts, Views.accession_elements. simpl.
  destruct (El.find x "AccessionNumberList") as [l|]; [|reflexivity].
  unfold El.findall, El.truthy. destruct (El.getchildren l); reflexivity.
Qed.

(** One databank stops the loop with a [TypeError], raised by
    [databank_name + "/"], when it has an accession number; without one its
    name element goes into the list of terms. *)
Lemma databank_terms_spec (info : list pyval) (x : Element) :
  databank_terms info (databank_dict x)
  = if Views.has_accession x then Raise TypeError
    else Ok (append_item info (Views.name_object x)).
Proof.
  unfold databank_terms. cbv zeta.
  rewrite databank_dict_name, databank_dict_accessions.
  unfold Views.has_accession, Views.accession_texts.
  destruct (Views.accession_elements x) as [|a l]; simpl; [reflexivity|].
  unfold Views.name_object. destruct (El.find x "DataBankName"); reflexivity.
Qed.

Lemma databank_loop (xs : list Element) (info : list pyval) :
  foldM databank_terms info (map databank_dict xs)
  = if existsb Views.has_accession xs then Raise TypeError
    else Ok (info ++ map Views.name_object xs)%list.
Proof.
  revert info; induction xs as [|x xs IH]; simpl; intros info.
  - now rewrite app_nil_r.
  - rewrite databank_terms_spec.
    destruct (Views.has_accession x); simpl; [reflexivity|].
    rewrite IH. unfold append_item. now rewrite <- app_assoc.
Qed.

(** A stage that only joins strings stops the assembler with a
    [TypeError] or lets it go on. *)
Ltac stage_type_error :=
  match goal with
  | |- exists e, bind ?m _ = Raise e /\ _ =>
      let E := fresh "E" in
      destruct m as [?|?] eqn:E; cbn [bind];
      [| eexists; split; [reflexivity|];
         left; first [ eapply joined_stage_raise; exact E
                     | eapply py_join_raise; exact E
                     | destruct (author_list _);
                       [discriminate E | eapply py_join_raise; exact E] ] ]
  end.

(** C10. The name of every databank sub-record is the DataBankName element
    itself ([None] for a DataBank without one), never a string, next to
    the texts of its accession numbers.  So for a citation with at least one
    DataBank the joined rendering of the databanks is a [TypeError]: the loop
    raises it at [databank_name + "/"] when some DataBank has an accession
    number; when none has, the loop ends with the name elements and
    [";".join] raises it.  With the databank_list switch off the assembler
    raises: a [TypeError], unless the history-date or the e-location
    extractor, which run before the databanks, raised first. *)
Theorem databank_name_is_element (cfg : Config)
        (pubmed_article medline article databank_list_xml : Element) :
  El.find pubmed_article "MedlineCitation" = Some medline ->
  El.find medline "Article" = Some article ->
  El.find article "DataBankList" = Some databank_list_xml ->
  El.findall databank_list_xml "DataBank" <> [] ->
  exists databanks,
    parse_databank_list medline = Ok databanks /\
    Forall2 (fun databank_xml databank =>
               match El.find databank_xml "DataBankName" with
               | Some name => Dict.get databank "name" = VElem name
               | None => Dict.get databank "name" = VNone
               end /\
               Dict.get databank "accession_numbers"
               = VList (Views.accession_texts databank_xml))
            (El.findall databank_list_xml "DataBank") databanks /\
    Forall (fun databank => forall t, Dict.get databank "name" <> VStr t) databanks /\
    foldM databank_terms [] databanks
    = (if existsb Views.has_accession (El.findall databank_list_xml "DataBank")
       then Raise TypeError
       else Ok (map Views.name_object (El.findall databank_list_xml "DataBank"))) /\
    (forall names, foldM databank_terms [] databanks = Ok names ->
                   py_join ";" names = Raise TypeError) /\
    databanks_joined databanks = Raise TypeError /\
    (databank_list cfg = false ->
     exists e, article_info cfg pubmed_article = Raise e /\
               (e = TypeError \/
                parse_pubmed_history_dates month_or_day_formater pubmed_article
                                           (year_info_only cfg) (parse_time cfg)
                = Raise e \/
                parse_elocation_ids pubmed_article = Raise e)).
Proof.
  intros Hm Ha Hl Hne.
  assert (Hp : parse_databank_list medline
               = Ok (map databank_dict (El.findall databank_list_xml "DataBank"))).
  { unfold parse_databank_list. rewrite Ha; simpl. rewrite Hl.
    now rewrite (findall_truthy _ _ Hne). }
  exists (map databank_dict (El.findall databank_list_xml "DataBank")).
  split; [exact Hp|]. split; [|split; [|split; [|split; [|split]]]].
  - clear Hne Hp.
    induction (El.findall databank_list_xml "DataBank") as [|x xs IH]; simpl;
      constructor; [|exact IH].
    split; [|apply databank_dict_accessions].
    rewrite databank_dict_name. unfold Views.name_object.
    destruct (El.find x "DataBankName"); reflexivity.
  - apply Forall_forall. intros d Hd. apply in_map_iff in Hd.
    destruct Hd as (x & <- & _). intros t. rewrite databank_dict_name.
    unfold Views.name_object. destruct (El.find x "DataBankName"); discriminate.
  - apply databank_loop.
  - intros names Hnames.
    assert (Hj := databanks_joined_raises Hne). unfold databanks_joined in Hj.
    rewrite Hnames in Hj. exact Hj.
  - now apply databanks_joined_raises.
  - intros Hflag.
    unfold parse_article_info. rewrite Hm. cbn [nonnull bind].
    rewrite Ha. cbn [nonnull bind].
    do 4 stage_type_error.
    destruct (parse_pubmed_history_dates _ pubmed_article _ _) as [hd|e] eqn:Eh;
      cbn [bind]; [|exists e; auto].
    stage_type_error.
    destruct (parse_elocation_ids pubmed_article) as [el|e] eqn:Ee; cbn [bind];
      [|exists e; auto].
    stage_type_error.
    rewrite Hp. cbn [bind]. rewrite Hflag, (databanks_joined_raises Hne). cbn [bind].
    exists TypeError; auto.
Qed.

(** A citation with a DataBank does not always end in a [TypeError] of the
    concatenation: after an ELocationID without text the assembler raises an
    [AttributeError] before it reaches the databanks, and for a DataBank
    without accession numbers nothing is concatenated - the loop ends with
    the name element and it is [";".join] that raises. *)
Lemma databank_error_elsewhere :
  parse_databank_list
    (Examples.medline_with (Examples.leaf "PMID" "1")
       [Elem "ELocationID" [("EIdType", "pii")] None [] None;
        Examples.node "DataBankList"
          [Examples.node "DataBank"
             [Examples.leaf "DataBankName" "GENBANK";
              Examples.node "AccessionNumberList"
                [Examples.leaf "AccessionNumber" "AF000001"]]]] [])
  = Ok [[("name", VElem (Examples.leaf "DataBankName" "GENBANK"));
         ("accession_numbers", VList [VStr "AF000001"])]] /\
  parse_article_info Utils.stringify_children Utils.month_or_day_formater
                     default_config Examples.citation_databank_bare_elocation
  = Raise AttributeError /\
  foldM databank_terms [] [databank_dict Examples.databank_without_accession]
  = Ok [VElem (Examples.leaf "DataBankName" "GENBANK")] /\
  py_join ";" [VElem (Examples.leaf "DataBankName" "GENBANK")] = Raise TypeError /\
  parse_article_info Utils.stringify_children Utils.month_or_day_formater
                     default_config Examples.citation_databank_without_accession
  = Raise TypeError.
Proof. repeat split; vm_compute; reflexivity. Qed.

(** *** Delete notices *)


Lemma delete_dict_unset (pmid k : string) (v : pyval) :
  In (k, v) (delete_dict pmid) -> k <> "pmid" -> k <> "delete" -> v = VNan.
Proof.
  unfold delete_dict; intros H Hp Hd.
  repeat (destruct H as [H|H];
          [injection H as <- <-; solve [reflexivity | congruence]|]).
  destruct H.
Qed.

Lemma delete_dict_fields (pmid k : string) :
  In k Spec.informational_fields -> Dict.get (delete_dict pmid) k = VNan.
Proof.
  unfold Spec.informational_fields. intros H.
  repeat (destruct H as [<-|H]; [reflexivity|]). destruct H.
Qed.

Lemma delete_record_spec (p : Element) :
  El.text p <> None ->
  exists d, delete_record p = Ok d /\ Spec.is_delete_record p d.
Proof.
  intros H. unfold delete_record. destruct (El.text p) as [t|] eqn:E; [|congruence].
  simpl. eexists; split; [reflexivity|].
  exists t. split; [exact E|]. split; [reflexivity|]. split; [reflexivity|].
  split; [apply delete_dict_fields | apply delete_dict_unset].
Qed.




(** *** The scalar DOI *)

(** The loop over the ELocationID children keeps the value computed for
    the last child only. *)
Lemma doi_loop_keeps_last (es : list Element) (e : Element) (acc : string) :
  Forall (fun x => El.text x <> None) es ->
  foldM doi_step acc (es ++ [e]) = doi_step "" e.
Proof.
  intros H. rewrite foldM_app.
  assert (Hes : exists d, foldM doi_step acc es = Ok d).
  { revert acc; induction H as [|x xs Hx _ IH]; simpl; intros acc; [eauto|].
    unfold doi_step at 1.
    destruct (String.eqb _ "doi"); simpl; [|apply IH].
    destruct (El.text x); [simpl; apply IH | congruence]. }
  destruct Hes as (d & ->). simpl.
  unfold doi_step. destruct (String.eqb _ "doi"); [|reflexivity].
  destruct (nonnull (El.text e)); reflexivity.
Qed.

(** C1. A doi-typed ELocationID followed by an ELocationID of another type
    is lost, and the ArticleIdList is not consulted as soon as the article has
    any ELocationID: in both cases [parse_doi] returns the empty string,
    while [parse_elocation_ids] on the same citations does report the DOI. *)
Theorem parse_doi_misses_doi :
  parse_doi Examples.doi_then_pii = Ok "" /\
  parse_doi Examples.pii_and_article_id = Ok "" /\
  parse_elocation_ids Examples.doi_then_pii
  = Ok [[("type", VStr "doi"); ("ELocationID", VStr "10.1000/x")];
        [("type", VStr "pii"); ("ELocationID", VStr "S1")]] /\
  parse_elocation_ids Examples.pii_and_article_id
  = Ok [[("type", VStr "pii"); ("ELocationID", VStr "S1")];
        [("type", VStr "doi"); ("ELocationID", VStr "10.1000/x")]].
Proof. repeat split; vm_compute; reflexivity. Qed.

(** *** Nodes that may be missing *)

Lemma no_medline_citation_raises (cfg : Config) (node : Element) :
  El.find node "MedlineCitation" = None ->
  article_info cfg node = Raise AttributeError.
Proof. intros H. unfold parse_article_info. rewrite H. reflexivity. Qed.

Lemma no_publication_status_no_record (cfg : Config) (pubmed_article : Element) (r : dict) :
  El.find_path pubmed_article ["PubmedData"; "PublicationStatus"] = None ->
  article_info cfg pubmed_article <> Ok r.
Proof.
  intros Hnone H. unfold parse_article_info in H.
  do 28 bind_inv H.
  match goal with
  | Hs : nonnull (El.find_path pubmed_article _) = Ok _ |- _ =>
      rewrite Hnone in Hs; discriminate Hs
  end.
Qed.

Lemma other_id_without_text_raises (medline : Element) (before after : list Element)
      (oid : Element) :
  El.findall medline "OtherID" = (before ++ oid :: after)%list ->
  Forall (fun x => El.text x <> None) before ->
  El.text oid = None ->
  parse_other_id medline = Raise TypeError.
Proof.
  intros Hf Hb Hn. unfold parse_other_id. rewrite Hf, foldM_app.
  assert (Hes : forall st, exists st', foldM other_id_step st before = Ok st').
  { clear - Hb. induction Hb as [|x xs Hx _ IH]; simpl; intros st; [eauto|].
    destruct st as [pmc ids]. unfold other_id_step at 1.
    destruct (El.text x) as [t|]; [|congruence].
    destruct (PyStr.contains "PMC" t); simpl; apply IH. }
  destruct (Hes ("", [])) as ([pmc ids] & ->). simpl.
  rewrite Hn. reflexivity.
Qed.

(** C2. A citation that lacks PubmedData/PublicationStatus makes the
    assembler raise an [AttributeError] (the same citation with the node is
    parsed), and an OtherID element without text makes [parse_other_id]
    raise a [TypeError]. *)
Theorem missing_optional_node_raises :
  article_info default_config Examples.citation_without_status = Raise AttributeError /\
  (exists r, article_info default_config Examples.plain_citation = Ok r) /\
  parse_other_id Examples.medline_empty_other_id = Raise TypeError.
Proof.
  split; [vm_compute; reflexivity|].
  split; [eexists; vm_compute; reflexivity|].
  vm_compute; reflexivity.
Qed.

(** A sub-element of a grant that is not there is the empty string, and so
    is the PMID that is at neither location. *)
Lemma grant_field_absent (grant : Element) (name : string) :
  El.find grant name = None -> grant_field grant name = VStr "".
Proof. unfold grant_field. now intros ->. Qed.

Lemma parse_pmid_absent (pubmed_article medline : Element) :
  El.find pubmed_article "MedlineCitation" = Some medline ->
  El.find medline "PMID" = None ->
  El.find_path pubmed_article ["PubmedData"; "ArticleIdList"] = None ->
  parse_pmid pubmed_article = Ok (VStr "").
Proof. unfold parse_pmid. intros -> H1 H2. simpl. now rewrite H1, H2. Qed.

(** C4. An empty PMID element gives the record the pmid [None], not the
    empty string, in the joined form; an empty Country element gives the
    grant sub-record the country [None], on which the joined rendering of the
    grants raises a [TypeError]. *)
Theorem empty_element_text_is_none :
  parse_pmid Examples.citation_empty_pmid = Ok VNone /\
  (exists r, article_info default_config Examples.citation_empty_pmid = Ok r
             /\ Dict.get r "pmid" = VNone) /\
  parse_grant_id Examples.citation_grant_empty_country
  = Ok [[("pmid", VStr "399300"); ("grant_id", VStr "HL17731");
         ("grant_acronym", VStr "HL"); ("country", VNone);
         ("agency", VStr "NHLBI NIH HHS")]] /\
  article_info default_config Examples.citation_grant_empty_country = Raise TypeError.
Proof.
  split; [vm_compute; reflexivity|].
  split; [eexists; split; vm_compute; reflexivity|].
  split; vm_compute; reflexivity.
Qed.

(** *** The two tree shapes *)

(** The descendant search does not see the root: a tree whose root is the
    container itself, with no container and no PubmedArticle below it, has
    no citation by either path. *)
Lemma container_root_finds_nothing (root : Element) :
  Forall (fun d => El.tag d <> "MedlineCitationSet" /\ El.tag d <> "PubmedArticle")
         (El.iterdescendants root) ->
  medline_citations root = [].
Proof.
  intros H. unfold medline_citations, El.findall_desc.
  assert (Hf : forall name, name = "MedlineCitationSet" \/ name = "PubmedArticle" ->
               filter (fun d => String.eqb (El.tag d) name) (El.iterdescendants root) = []).
  { intros name Hn. induction H as [|d ds [H1 H2] _ IH]; simpl; [reflexivity|].
    destruct (String.eqb_spec (El.tag d) name); [|exact IH].
    destruct Hn; congruence. }
  rewrite !Hf by auto. reflexivity.
Qed.

(** C5. On the container shape the driver does find the MedlineCitation
    nodes by the first path, and then fails on each of them: the assembler
    looks for a MedlineCitation child below the node it is given. *)
Theorem container_shape_raises :
  medline_citations Examples.container_tree
  = [Examples.medline_with (Examples.leaf "PMID" "399296") [] []] /\
  medline_xml Examples.container_tree default_config = Raise AttributeError /\
  parse_medline_grant_id Examples.container_tree = Raise AttributeError /\
  (exists r, medline_xml (Examples.node "PubmedArticleSet" [Examples.plain_citation])
                         default_config = Ok [r]).
Proof.
  split; [vm_compute; reflexivity|].
  split; [vm_compute; reflexivity|].
  split; [vm_compute; reflexivity|].
  eexists; vm_compute; reflexivity.
Qed.

(** *** Personal subject names *)

Lemma personal_subject_names_absent (medline : Element) :
  El.find medline "PersonalNameSubjectList" = None ->
  parse_personal_subject_names_list medline = Ok [].
Proof. intros H. unfold parse_personal_subject_names_list. now rewrite H. Qed.

Lemma personal_subject_names_present (medline list_xml : Element) :
  El.find medline "PersonalNameSubjectList" = Some list_xml ->
  El.findall list_xml "PersonalNameSubject" <> [] ->
  parse_personal_subject_names_list medline = Raise TypeError.
Proof.
  intros H Hne. unfold parse_personal_subject_names_list. rewrite H.
  destruct (El.findall list_xml "PersonalNameSubject"); [congruence|reflexivity].
Qed.

(** C9. With one PersonalNameSubject under the list element the extractor
    raises a [TypeError] instead of returning the sub-record: the loop hands
    the sub-record to [append] of the element it came from. *)
Theorem personal_subject_names_raise :
  parse_personal_subject_names_list Examples.medline_with_subject = Raise TypeError /\
  parse_personal_subject_names_list
    (Examples.medline_with (Examples.leaf "PMID" "1") [] []) = Ok [].
Proof. split; vm_compute; reflexivity. Qed.

(** *** Dates *)



Lemma str_append_assoc (a b c : string) : (a ++ b) ++ c = a ++ b ++ c.
Proof. induction a as [|x a IH]; simpl; [reflexivity | now rewrite IH]. Qed.

Lemma str_append_nil_r (a : string) : a ++ "" = a.
Proof. induction a as [|x a IH]; simpl; [reflexivity | now rewrite IH]. Qed.







(** *** MeSH lists: deduplication *)

Lemma filter_implied (A : Type) (p q : A -> bool) (l : list A) :
  (forall z, p z = true -> q z = true) -> filter p (filter q l) = filter p l.
Proof.
  intros H. induction l as [|z l IH]; simpl; [reflexivity|].
  destruct (q z) eqn:Eq; simpl; [now rewrite IH|].
  destruct (p z) eqn:Ep; [|exact IH]. rewrite (H z Ep) in Eq; discriminate.
Qed.

Lemma filter_swap (A : Type) (p q : A -> bool) (l : list A) :
  filter p (filter q l) = filter q (filter p l).
Proof.
  induction l as [|z l IH]; simpl; [reflexivity|].
  destruct (q z) eqn:Eq, (p z) eqn:Ep; simpl; rewrite ?Eq, ?Ep, IH; reflexivity.
Qed.

Lemma dedup_first_filter (p : string -> bool) (l : list string) :
  Spec.dedup_first (filter p l) = filter p (Spec.dedup_first l).
Proof.
  induction l as [|y l IH]; simpl; [reflexivity|].
  destruct (p y) eqn:Ep; simpl.
  - rewrite IH, filter_swap. reflexivity.
  - rewrite IH. symmetry. apply filter_implied.
    intros z Hz. destruct (String.eqb_spec y z); [congruence | reflexivity].
Qed.

Lemma mem_str_app (x : string) (xs ys : list string) :
  mem_str x (xs ++ ys) = mem_str x xs || mem_str x ys.
Proof. apply existsb_app. Qed.

Lemma mem_append_new (x s : string) (acc : list string) :
  mem_str x (append_new acc s) = mem_str x acc || String.eqb x s.
Proof.
  unfold append_new, append_item. destruct (mem_str s acc) eqn:E.
  - destruct (String.eqb_spec x s) as [->|]; [now rewrite E | now rewrite orb_false_r].
  - rewrite mem_str_app. simpl. now rewrite orb_false_r.
Qed.

(** Appending each string unless it is there already is deduplication with
    the first occurrence winning. *)
Lemma fold_append_new (xs acc : list string) :
  fold_left append_new xs acc
  = (acc ++ Spec.dedup_first (filter (fun y => negb (mem_str y acc)) xs))%list.
Proof.
  revert acc; induction xs as [|x xs IH]; intros acc; simpl.
  - now rewrite app_nil_r.
  - rewrite IH. unfold append_new at 1 2. destruct (mem_str x acc) eqn:E; simpl.
    + reflexivity.
    + unfold append_item. rewrite <- app_assoc. simpl. do 2 f_equal.
      rewrite <- dedup_first_filter. f_equal.
      rewrite filter_swap.
      clear. induction xs as [|z xs IH]; simpl; [reflexivity|].
      rewrite mem_str_app. simpl. rewrite orb_false_r, (String.eqb_sym x z).
      destruct (mem_str z acc) eqn:E1, (String.eqb z x) eqn:E2; simpl;
        rewrite ?E1; simpl; rewrite ?IH; reflexivity.
Qed.

Lemma fold_append_new_nil (xs : list string) :
  fold_left append_new xs [] = Spec.dedup_first xs.
Proof.
  rewrite fold_append_new. simpl. f_equal.
  induction xs as [|x xs IH]; simpl; [reflexivity | now rewrite IH].
Qed.

Lemma dedup_first_NoDup (xs : list string) : NoDup (Spec.dedup_first xs).
Proof.
  induction xs as [|x xs IH]; simpl; constructor.
  - intros H. apply filter_In in H as [_ H]. now rewrite String.eqb_refl in H.
  - now apply NoDup_filter.
Qed.

(** When no heading entry repeats an earlier entry, taking the heading
    entries unconditionally is the same as taking only new entries. *)
Lemma fold_take_major_fresh (cs : list (Spec.major_kind * string)) (seen acc : list string) :
  (forall x, mem_str x seen = mem_str x acc) ->
  Spec.headings_fresh seen cs = true ->
  fold_left Spec.take_major cs acc = fold_left append_new (map snd cs) acc.
Proof.
  revert seen acc; induction cs as [|[k s] cs IH]; intros seen acc Hmem H; simpl;
    [reflexivity|].
  simpl in H. apply andb_true_iff in H as [Hk H].
  assert (Hstep : Spec.take_major acc (k, s) = append_new acc s).
  { destruct k; [reflexivity|]. unfold Spec.take_major, append_new; simpl.
    rewrite <- Hmem. apply negb_true_iff in Hk. now rewrite Hk. }
  rewrite Hstep. apply (IH (s :: seen)); [|exact H].
  intros x. rewrite mem_append_new. simpl. rewrite Hmem.
  apply orb_comm.
Qed.

(** *** MeSH lists: the loop *)

Lemma cat3 (a b c : string) : cat [Some a; Some b; Some c] = Ok (a ++ b ++ c).
Proof. simpl. now rewrite !str_append_assoc. Qed.

Lemma cat4 (a b c d : string) :
  cat [Some a; Some b; Some c; Some d] = Ok (a ++ b ++ c ++ d).
Proof. simpl. now rewrite !str_append_assoc. Qed.

Lemma cat8 (a b c d e f g h : string) :
  cat [Some a; Some b; Some c; Some d; Some e; Some f; Some g; Some h]
  = Ok (a ++ b ++ c ++ d ++ e ++ f ++ g ++ h).
Proof. simpl. now rewrite !str_append_assoc. Qed.

Lemma has_text_some (e : Element) :
  Spec.has_text e = true -> exists t, El.text e = Some t.
Proof. unfold Spec.has_text. destruct (El.text e); simpl; [eauto | discriminate]. Qed.

Lemma mesh_subheadings_loop (d : Element) (qs : list Element) (acc : MeshLists) :
  Spec.has_text d = true ->
  forallb Spec.has_text qs = true ->
  foldM (mesh_subheading_step d) acc qs
  = Ok (mkMeshLists
          (mesh_terms_list acc)
          (fold_left append_new (map Spec.rendered qs) (mesh_subheadings_list acc))
          (fold_left append_new (map Spec.rendered (filter is_major qs))
                     (mesh_major_topics_list acc))
          (mesh_full_terms_list acc ++ map (Spec.full_term d) qs)).
Proof.
  intros Hd. destruct (has_text_some _ Hd) as (td & Htd).
  revert acc; induction qs as [|q qs IH]; simpl; intros acc Hq.
  - rewrite app_nil_r. now destruct acc.
  - apply andb_true_iff in Hq as [Hq Hqs].
    destruct (has_text_some _ Hq) as (tq & Htq).
    unfold mesh_subheading_step at 1. rewrite Htd, Htq, cat3, cat8. cbn [bind].
    rewrite IH by assumption. cbn [mesh_terms_list mesh_subheadings_list
                                   mesh_major_topics_list mesh_full_terms_list].
    assert (Hr : Spec.rendered q = ui q ++ ":" ++ tq)
      by (unfold Spec.rendered; now rewrite Htq).
    assert (Hf : Spec.full_term d q
                 = ui d ++ "/" ++ ui q ++ ":" ++ td ++ "/" ++ tq ++ star q)
      by (unfold Spec.full_term; now rewrite Htd, Htq).
    rewrite Hr, Hf. unfold append_item. rewrite <- app_assoc.
    destruct (is_major q); cbn [map fold_left app]; rewrite ?Hr; reflexivity.
Qed.

Lemma fold_take_qualifiers (qs : list Element) (acc : list string) :
  fold_left Spec.take_major (map (fun q => (Spec.FromQualifier, Spec.rendered q)) qs) acc
  = fold_left append_new (map Spec.rendered qs) acc.
Proof. revert acc; induction qs as [|q qs IH]; simpl; intros acc; [reflexivity | apply IH]. Qed.

(** What one well-formed heading adds to the four lists. *)
Lemma mesh_heading_step_spec (acc : MeshLists) (heading : Element) :
  Spec.heading_wf heading = true ->
  mesh_heading_step acc heading
  = Ok (mkMeshLists
          (mesh_terms_list acc ++ Spec.term_entry heading)
          (fold_left append_new (Spec.subheading_entries heading)
                     (mesh_subheadings_list acc))
          (fold_left Spec.take_major (Spec.major_candidates heading)
                     (mesh_major_topics_list acc))
          (mesh_full_terms_list acc ++ Spec.full_term_entries heading)).
Proof.
  unfold Spec.heading_wf, Spec.term_entry, Spec.subheading_entries,
    Spec.major_candidates, Spec.full_term_entries, Spec.descriptor, Spec.qualifiers,
    mesh_heading_step.
  destruct (El.find heading "DescriptorName") as [d|]; [|discriminate].
  intros H. apply andb_true_iff in H as [Hd Hqs].
  destruct (has_text_some _ Hd) as (td & Htd).
  cbn [nonnull bind]. rewrite Htd, cat3. cbn [bind].
  destruct (El.findall heading "QualifierName") as [|q qs] eqn:Eq.
  - rewrite ?cat3, cat4. unfold Spec.rendered, star, append_item. rewrite Htd.
    cbn [PyStr.or_empty mesh_terms_list mesh_subheadings_list
         mesh_major_topics_list mesh_full_terms_list].
    destruct (is_major d); simpl; rewrite ?str_append_assoc; reflexivity.
  - rewrite mesh_subheadings_loop by assumption.
    cbn [mesh_terms_list mesh_subheadings_list mesh_major_topics_list
         mesh_full_terms_list].
    assert (Hr : Spec.rendered d = ui d ++ ":" ++ td)
      by (unfold Spec.rendered; now rewrite Htd).
    rewrite fold_take_qualifiers, Hr. reflexivity.
Qed.

Lemma mesh_headings_loop (headings : list Element) (acc : MeshLists) :
  forallb Spec.heading_wf headings = true ->
  foldM mesh_heading_step acc headings
  = Ok (mkMeshLists
          (mesh_terms_list acc ++ flat_map Spec.term_entry headings)
          (fold_left append_new (flat_map Spec.subheading_entries headings)
                     (mesh_subheadings_list acc))
          (fold_left Spec.take_major (flat_map Spec.major_candidates headings)
                     (mesh_major_topics_list acc))
          (mesh_full_terms_list acc ++ flat_map Spec.full_term_entries headings)).
Proof.
  revert acc; induction headings as [|h hs IH]; simpl; intros acc H.
  - rewrite !app_nil_r. now destruct acc.
  - apply andb_true_iff in H as [Hh Hhs].
    rewrite mesh_heading_step_spec by assumption. cbn [bind].
    rewrite IH by assumption.
    cbn [mesh_terms_list mesh_subheadings_list mesh_major_topics_list
         mesh_full_terms_list].
    now rewrite !fold_left_app, <- !app_assoc.
Qed.

(** A heading without qualifiers has exactly one full-term entry, starred
    iff the heading is major. *)
Lemma full_terms_without_qualifier (heading d : Element) :
  Spec.descriptor heading = Some d -> Spec.qualifiers heading = [] ->
  Spec.full_term_entries heading
  = [Spec.rendered d ++ (if is_major d then "*" else "")].
Proof. unfold Spec.full_term_entries. now intros -> ->. Qed.

(** A heading with qualifiers has exactly one full-term entry per
    qualifier, each starred iff its own qualifier is major. *)
Lemma full_terms_per_qualifier (heading d : Element) :
  Spec.descriptor heading = Some d -> Spec.qualifiers heading <> [] ->
  Spec.full_term_entries heading
  = map (fun q => ui d ++ "/" ++ ui q ++ ":" ++ PyStr.or_empty (El.text d) ++ "/"
                  ++ PyStr.or_empty (El.text q) ++ (if is_major q then "*" else ""))
        (Spec.qualifiers heading).
Proof.
  unfold Spec.full_term_entries. intros -> H.
  destruct (Spec.qualifiers heading); [congruence | reflexivity].
Qed.

(** C6, as the code has it. For a citation whose headings have a descriptor
    with text and qualifiers with text, the four views are the joined lists
    of: the heading entries; the qualifier entries, deduplicated with the
    first occurrence winning; the major entries, where a qualifier entry is
    taken only when new and a heading entry always; and the full terms, one
    per qualifier-less heading and one per qualifier otherwise.  The major
    topics are deduplicated, first occurrence winning, whenever no heading
    entry repeats an earlier major entry. *)
Theorem mesh_views (medline mesh : Element) :
  El.find medline "MeshHeadingList" = Some mesh ->
  forallb Spec.heading_wf (El.getchildren mesh) = true ->
  let headings := El.getchildren mesh in
  let major_entries := flat_map Spec.major_candidates headings in
  parse_mesh_info medline
  = Ok [("mesh_terms", VStr (PyStr.join "; " (flat_map Spec.term_entry headings)));
        ("mesh_subheadings",
         VStr (PyStr.join "; "
                 (Spec.dedup_first (flat_map Spec.subheading_entries headings))));
        ("mesh_major_topics",
         VStr (PyStr.join "; " (fold_left Spec.take_major major_entries [])));
        ("mesh_full_terms",
         VStr (PyStr.join "; " (flat_map Spec.full_term_entries headings)))]
  /\ (Spec.headings_fresh [] major_entries = true ->
      fold_left Spec.take_major major_entries []
      = Spec.dedup_first (map snd major_entries)).
Proof.
  intros Hm Hwf. cbv zeta. split.
  - unfold parse_mesh_info, parse_mesh_lists. rewrite Hm.
    rewrite mesh_headings_loop by assumption. cbn [bind mesh_terms_list
      mesh_subheadings_list mesh_major_topics_list mesh_full_terms_list app].
    now rewrite fold_append_new_nil.
  - intros Hfresh.
    rewrite (@fold_take_major_fresh _ [] [] (fun x => eq_refl) Hfresh).
    apply fold_append_new_nil.
Qed.

(** C6, as the specification has it, fails: the same major heading twice,
    without qualifiers, is twice in the major-topics list. *)
Lemma major_topics_not_deduplicated :
  exists l, parse_mesh_lists Examples.repeated_major_mesh = Ok l
            /\ ~ NoDup (mesh_major_topics_list l).
Proof.
  eexists; split; [vm_compute; reflexivity|].
  intros H. inversion H as [|x xs Hin _]; subst. apply Hin. now left.
Qed.

End Properties.

(* ================================================================== *)
(** ** The theorems at the sample trees *)
(* ================================================================== *)

Import Examples.

Lemma issue_composition_witness :
  Dict.get plain_record "issue" = VStr "50(2)" /\
  Dict.get plain_record "short_issue" = VStr "2" /\
  Dict.get plain_record "volume" = VStr "50".
Proof.
  assert (H := @issue_composition Utils.stringify_children Utils.month_or_day_formater
                 default_config plain_citation
                 (medline_with (leaf "PMID" "399296") [] []) (article_with [])
                 plain_record).
  vm_compute in H. apply H; reflexivity.
Defined.

Lemma databank_name_is_element_witness :
  El.findall (node "DataBankList"
                   [node "DataBank"
                         [leaf "DataBankName" "GENBANK";
                          node "AccessionNumberList" [leaf "AccessionNumber" "AF000001"]]])
             "DataBank" <> [] /\
  parse_databank_list (medline_with (leaf "PMID" "1")
                         [node "DataBankList"
                               [node "DataBank"
                                     [leaf "DataBankName" "GENBANK";
                                      node "AccessionNumberList"
                                           [leaf "AccessionNumber" "AF000001"]]]] [])
  = Ok [[("name", VElem (leaf "DataBankName" "GENBANK"));
         ("accession_numbers", VList [VStr "AF000001"])]] /\
  foldM databank_terms []
        [[("name", VElem (leaf "DataBankName" "GENBANK"));
          ("accession_numbers", VList [VStr "AF000001"])]]
  = Raise TypeError /\
  parse_article_info Utils.stringify_children Utils.month_or_day_formater
                     default_config citation_with_databank
  = Raise TypeError /\
  ~ (exists r, parse_article_info Utils.stringify_children Utils.month_or_day_formater
                                  default_config citation_with_databank = Ok r).
Proof.
  assert (Hne : El.findall (node "DataBankList"
                   [node "DataBank"
                         [leaf "DataBankName" "GENBANK";
                          node "AccessionNumberList" [leaf "AccessionNumber" "AF000001"]]])
             "DataBank" <> []) by (vm_compute; discriminate).
  split; [exact Hne|].
  destruct (@databank_name_is_element
              Utils.stringify_children Utils.month_or_day_formater default_config
              citation_with_databank _ _ _ eq_refl eq_refl eq_refl Hne)
    as (dbs & Hdbs & _ & _ & Hloop & _ & _ & Hno).
  vm_compute in Hdbs. injection Hdbs as <-.
  split; [reflexivity|]. split; [exact Hloop|]. split; [vm_compute; reflexivity|].
  intros (r & Hr). destruct (Hno eq_refl) as (e & He & _).
  rewrite Hr in He. discriminate He.
Defined.



Lemma mesh_views_witness :
  parse_mesh_info medline_with_mesh
  = Ok [("mesh_terms",
         VStr "D000818:Animals; D000906:Antibodies; D004283:Dog Diseases; D005455:Fluorescent Antibody Technique");
        ("mesh_subheadings", VStr "Q000032:analysis; Q000276:immunology");
        ("mesh_major_topics",
         VStr "Q000032:analysis; Q000276:immunology; D005455:Fluorescent Antibody Technique");
        ("mesh_full_terms",
         VStr "D000818:Animals; D000906/Q000032:Antibodies/analysis*; D000906/Q000276:Antibodies/immunology; D004283/Q000276:Dog Diseases/immunology*; D005455:Fluorescent Antibody Technique*")]
  /\ fold_left Spec.take_major
               (flat_map Spec.major_candidates (El.getchildren sample_mesh)) []
     = ["Q000032:analysis"; "Q000276:immunology"; "D005455:Fluorescent Antibody Technique"].
Proof.
  destruct (@mesh_views medline_with_mesh sample_mesh eq_refl eq_refl) as [H1 H2].
  split; [exact H1 | exact (H2 eq_refl)].
Defined.

(* ================================================================== *)
(** ** Loops that can fail, and the joined form *)
(* ================================================================== *)

(** A loop whose body succeeds exactly on the well-formed elements returns
    the images of all elements, or raises when one is not well-formed. *)
Lemma mapM_guarded (A B : Type) (f : A -> result B) (wf : A -> bool) (g : A -> B)
      (e0 : exn) (xs : list A) :
  (forall x, wf x = true -> f x = Ok (g x)) ->
  (forall x, wf x = false -> f x = Raise e0) ->
  mapM f xs = if forallb wf xs then Ok (map g xs) else Raise e0.
Proof.
  intros Hok Hbad. induction xs as [|x xs IH]; simpl; [reflexivity|].
  destruct (wf x) eqn:E; simpl.
  - rewrite (Hok x E); simpl. rewrite IH. now destruct (forallb wf xs).
  - now rewrite (Hbad x E).
Qed.

Lemma str_of_strings (ss : list string) : map str_of (map VStr ss) = ss.
Proof. induction ss as [|s ss IH]; simpl; [reflexivity | now rewrite IH]. Qed.

Lemma py_join_strings (sep : string) (ss : list string) :
  py_join sep (map VStr ss) = Ok (PyStr.join sep ss).
Proof.
  unfold py_join. rewrite (mapM_total as_str str_of).
  - simpl. now rewrite str_of_strings.
  - intros v Hv. apply in_map_iff in Hv as (s & <- & _). reflexivity.
Qed.

Lemma py_join_ok (sep : string) (items : list pyval) (s : string) :
  py_join sep items = Ok s -> items = map VStr (map str_of items).
Proof.
  unfold py_join. intros H. bind_inv H. clear H.
  apply mapM_ok_Forall2 in E.
  induction E as [|v t vs ts Hv _ IH]; simpl; [reflexivity|].
  destruct v; try discriminate. simpl. now rewrite <- IH.
Qed.

(** The bars and fields added behind the first field of a row. *)
Lemma sum_of_strings (acc : string) (ss : list string) :
  foldM py_add (VStr acc) (bar_others (map VStr ss))
  = Ok (VStr (acc ++ fold_right (fun s t => "|" ++ s ++ t) "" ss)).
Proof.
  revert acc; induction ss as [|s ss IH]; intros acc; simpl.
  - now rewrite str_append_nil_r.
  - rewrite IH. now rewrite !str_append_assoc.
Qed.

Lemma join_bars (s : string) (ss : list string) :
  PyStr.join "|" (s :: ss) = s ++ fold_right (fun x t => "|" ++ x ++ t) "" ss.
Proof.
  revert s; induction ss as [|x ss IH]; intros s.
  - simpl. now rewrite str_append_nil_r.
  - change (PyStr.join "|" (s :: x :: ss)) with (s ++ "|" ++ PyStr.join "|" (x :: ss)).
    rewrite IH. reflexivity.
Qed.

Lemma bar_row_strings (ss : list string) :
  bar_row (map VStr ss) = Ok (VStr (Views.row_text (map VStr ss))).
Proof.
  unfold Views.row_text. rewrite str_of_strings.
  destruct ss as [|s ss]; [reflexivity|].
  unfold bar_row, py_sum. cbn [map]. now rewrite sum_of_strings, join_bars.
Qed.

Lemma sum_ok_strings (others : list pyval) (a : pyval) (s : string) :
  foldM py_add a others = Ok (VStr s) -> is_str a = true /\ forallb is_str others = true.
Proof.
  revert a; induction others as [|x others IH]; simpl; intros a H.
  - injection H as ->. auto.
  - bind_inv H. destruct a, x; try discriminate. simpl in E. injection E as <-.
    destruct (IH _ H) as [_ Ho]. auto.
Qed.

Lemma bar_others_strings (vals : list pyval) :
  forallb is_str (bar_others vals) = forallb is_str vals.
Proof. induction vals as [|v vals IH]; simpl; [reflexivity | now rewrite IH]. Qed.

Lemma strings_are_VStr (vals : list pyval) :
  forallb is_str vals = true -> vals = map VStr (map str_of vals).
Proof.
  induction vals as [|v vals IH]; simpl; [reflexivity|].
  intros H. apply andb_true_iff in H as [Hv Hs].
  destruct v; try discriminate. simpl. now rewrite <- IH.
Qed.

Lemma bar_row_ok_strings (vals : list pyval) (s : string) :
  bar_row vals = Ok (VStr s) -> forallb is_str vals = true.
Proof.
  destruct vals as [|v vals]; [reflexivity|]. unfold bar_row, py_sum. intros H.
  apply sum_ok_strings in H as [Hv Ho]. simpl. rewrite Hv.
  now rewrite bar_others_strings in Ho.
Qed.

(** The joined form is there exactly when every field of every
    sub-record is a string, and then it is the rows between semicolons;
    otherwise the rendering raises a [TypeError]. *)
Lemma joined_rows_spec (row : dict -> list pyval) (records : list dict) :
  joined_rows row records
  = if Views.all_strings row records
    then Ok (Views.rows_text row records)
    else Raise TypeError.
Proof.
  destruct (Views.all_strings row records) eqn:Hall.
  - unfold joined_rows, Views.rows_text.
    rewrite (mapM_total (fun r => bar_row (row r))
                        (fun r => VStr (Views.row_text (row r)))).
    + simpl. rewrite <- (map_map (fun r => Views.row_text (row r)) VStr).
      apply py_join_strings.
    + intros r Hr. unfold Views.all_strings in Hall.
      rewrite forallb_forall in Hall. specialize (Hall r Hr).
      rewrite (strings_are_VStr _ Hall). 
      rewrite bar_row_strings. reflexivity.
  - destruct (joined_rows row records) as [s|e] eqn:E.
    + exfalso. unfold joined_rows in E. bind_inv E.
      apply py_join_ok in E. apply mapM_ok_Forall2 in E0.
      assert (Hs : Views.all_strings row records = true); [|congruence].
      unfold Views.all_strings. clear Hall.
      revert E. generalize (map str_of a). intros ss Hss. subst a.
      revert ss E0. induction records as [|r rs IH]; intros ss H; [reflexivity|].
      inversion H as [|? v ? vs Hr Hrs Heq1 Heq2]; subst.
      destruct ss as [|t ss]; [discriminate|]. simpl in Heq2.
      injection Heq2 as -> ->. simpl.
      rewrite (bar_row_ok_strings _ Hr). simpl. exact (IH _ Hrs).
    + now rewrite (joined_rows_raise _ _ E).
Qed.

(** A switchable field: the sub-records in list mode, their joined form in
    string mode, which needs every field to be a string. *)
Lemma switchable_stage (flag : bool) (row : dict -> list pyval) (records : list dict)
      (v : pyval) :
  (if flag then Ok (as_list records)
   else a <- joined_rows row records ;; Ok (VStr a)) = Ok v ->
  v = (if flag then as_list records else VStr (Views.rows_text row records)) /\
  (flag = false -> Views.all_strings row records = true).
Proof.
  destruct flag; [intros H; injection H as <-; split; [reflexivity | discriminate]|].
  rewrite joined_rows_spec. destruct (Views.all_strings row records); simpl;
    [|discriminate].
  intros H; injection H as <-. auto.
Qed.

(* ================================================================== *)
(** ** The extractors one by one *)
(* ================================================================== *)

Lemma doi_typed_test (e : Element) :
  String.eqb (El.get_default e "EIdType" "") "doi" = Views.doi_typed e.
Proof. unfold El.get_default, Views.doi_typed. now destruct (El.get e "EIdType"). Qed.

Lemma last_cons (A : Type) (a d : A) (l : list A) : last (a :: l) d = last l a.
Proof.
  revert a d; induction l as [|b l IH]; intros a d; [reflexivity|].
  change (last (a :: b :: l) d) with (last (b :: l) d).
  now rewrite (IH b d), (IH b a).
Qed.

Lemma last_map (A B : Type) (f : A -> B) (l : list A) (d : A) :
  last (map f l) (f d) = f (last l d).
Proof.
  induction l as [|x l IH]; [reflexivity|].
  destruct l as [|y l]; [reflexivity|]. exact IH.
Qed.

(** One round of the loop of [parse_doi], and the whole loop. *)
Lemma doi_step_spec (acc : string) (e : Element) :
  doi_step acc e
  = if Views.doi_readable e then Ok (Views.doi_value e) else Raise AttributeError.
Proof.
  unfold doi_step, Views.doi_readable, Views.doi_value, Spec.has_text.
  rewrite doi_typed_test.
  destruct (Views.doi_typed e); [|reflexivity].
  destruct (El.text e); reflexivity.
Qed.

Lemma doi_loop (es : list Element) (acc : string) :
  foldM doi_step acc es
  = if forallb Views.doi_readable es
    then Ok (last (map Views.doi_value es) acc)
    else Raise AttributeError.
Proof.
  revert acc; induction es as [|e es IH]; intros acc; [reflexivity|].
  cbn [foldM forallb map]. rewrite doi_step_spec.
  destruct (Views.doi_readable e); cbn [bind andb]; [|reflexivity].
  rewrite IH. destruct (forallb Views.doi_readable es); [|reflexivity].
  now rewrite last_cons.
Qed.

(** The scalar DOI in closed form.  With ELocationID children, a doi-typed
    one without text is an [AttributeError] wherever it stands; otherwise
    the last ELocationID alone decides - its stripped text when it is typed
    "doi", the empty string when it has any other type - and the
    ArticleIdList is not looked at.  Without ELocationID children the result
    is the stripped text of the doi-typed ArticleId, the empty string when
    there is none or when it has no text. *)
Theorem parse_doi_last_elocation (pubmed_article medline article : Element) :
  El.find pubmed_article "MedlineCitation" = Some medline ->
  El.find medline "Article" = Some article ->
  parse_doi pubmed_article
  = match Views.elocations article with
    | [] =>
        Ok (match Views.article_id_doi pubmed_article with
            | Some doi => PyStr.strip (PyStr.or_empty (El.text doi))
            | None => ""
            end)
    | first :: rest =>
        if forallb Views.doi_readable (first :: rest)
        then Ok (Views.doi_value (last rest first))
        else Raise AttributeError
    end.
Proof.
  unfold Views.elocations, Views.article_id_doi. intros Hm Ha.
  unfold parse_doi. rewrite Hm; cbn [nonnull bind]. rewrite Ha; cbn [nonnull bind].
  destruct (El.findall article "ELocationID") as [|e es].
  - destruct (El.find_path pubmed_article ["PubmedData"; "ArticleIdList"]) as [ids|];
      [|reflexivity].
    destruct (El.find_attr ids "ArticleId" "IdType" "doi") as [doi|]; [|reflexivity].
    destruct (El.text doi); reflexivity.
  - rewrite doi_loop.
    destruct (forallb Views.doi_readable (e :: es)); [|reflexivity].
    cbn [map]. now rewrite last_cons, last_map.
Qed.

Lemma elocation_loop (es : list Element) (found : bool) (acc : list dict) :
  foldM elocation_step (found, acc) es
  = if forallb Spec.has_text es
    then Ok (found || existsb Views.doi_typed es,
             (acc ++ map Views.elocation_entry es)%list)
    else Raise AttributeError.
Proof.
  revert found acc; induction es as [|e es IH]; intros found acc; simpl.
  - now rewrite orb_false_r, app_nil_r.
  - unfold elocation_step at 1, Spec.has_text at 1, Views.doi_typed at 1,
      Views.elocation_entry at 1.
    destruct (El.text e) as [t|]; simpl; [|reflexivity].
    rewrite IH. destruct (forallb Spec.has_text es); [|reflexivity].
    unfold append_item. rewrite <- app_assoc. simpl.
    destruct (El.get e "EIdType") as [ty|]; simpl.
    + destruct (String.eqb ty "doi"), found; reflexivity.
    + reflexivity.
Qed.

(** The e-location list: one entry per ELocationID in document order;
    the ArticleIdList entry typed "doi" is added behind them only when no
    ELocationID is typed "doi" and its stripped text is not empty.  An
    ELocationID without text, or a consulted ArticleId without text, is an
    [AttributeError]. *)
Theorem parse_elocation_ids_spec (pubmed_article medline article : Element) :
  El.find pubmed_article "MedlineCitation" = Some medline ->
  El.find medline "Article" = Some article ->
  let ids := Views.elocations article in
  parse_elocation_ids pubmed_article
  = if forallb Spec.has_text ids
    then if existsb Views.doi_typed ids
         then Ok (map Views.elocation_entry ids)
         else match Views.article_id_doi pubmed_article with
              | Some doi =>
                  match El.text doi with
                  | Some t =>
                      if String.eqb (PyStr.strip t) ""
                      then Ok (map Views.elocation_entry ids)
                      else Ok (map Views.elocation_entry ids
                               ++ [[("type", VStr "doi");
                                    ("ELocationID", VStr (PyStr.strip t))]])%list
                  | None => Raise AttributeError
                  end
              | None => Ok (map Views.elocation_entry ids)
              end
    else Raise AttributeError.
Proof.
  intros Hm Ha. cbv zeta. unfold Views.elocations, Views.article_id_doi.
  unfold parse_elocation_ids. rewrite Hm; cbn [nonnull bind]. rewrite Ha; cbn [nonnull bind].
  rewrite elocation_loop.
  destruct (forallb Spec.has_text (El.findall article "ELocationID")); [|reflexivity].
  cbn [bind orb app]. destruct (existsb Views.doi_typed _); [reflexivity|].
  destruct (El.find_path pubmed_article _) as [ids|]; [|reflexivity].
  destruct (El.find_attr ids "ArticleId" "IdType" "doi") as [doi|]; [|reflexivity].
  destruct (El.text doi) as [t|]; [|reflexivity].
  cbn [nonnull bind]. now destruct (String.eqb (PyStr.strip t) "").
Qed.

Lemma other_id_loop (oids : list Element) (pmc : string) (ids : list string) :
  foldM other_id_step (pmc, ids) oids
  = if forallb Spec.has_text oids
    then let texts := map (fun oid => PyStr.or_empty (El.text oid)) oids in
         Ok (last (filter Views.is_pmc texts) pmc,
             (ids ++ filter (fun t => negb (Views.is_pmc t)) texts)%list)
    else Raise TypeError.
Proof.
  revert pmc ids; induction oids as [|o oids IH]; intros pmc ids.
  - simpl. now rewrite app_nil_r.
  - cbn [foldM forallb map]. unfold other_id_step at 1, Spec.has_text at 1.
    destruct (El.text o) as [t|]; cbn [is_none negb andb PyStr.or_empty];
      [|reflexivity].
    assert (Ep : Views.is_pmc t = PyStr.contains "PMC" t) by reflexivity.
    cbv zeta. cbn [filter]. rewrite Ep.
    destruct (PyStr.contains "PMC" t); cbn [bind negb]; rewrite IH;
      destruct (forallb Spec.has_text oids); try reflexivity; cbv zeta.
    + now rewrite last_cons.
    + unfold append_item. now rewrite <- app_assoc.
Qed.

(** OtherID: the pmc field is the text of the last OtherID whose text
    contains "PMC" (the empty string when there is none), other_id joins the
    remaining texts in document order; an OtherID without text is a
    [TypeError]. *)
Theorem parse_other_id_spec (medline : Element) :
  parse_other_id medline
  = if forallb Spec.has_text (El.findall medline "OtherID")
    then Ok [("pmc", VStr (last (filter Views.is_pmc (Views.other_id_texts medline)) ""));
             ("other_id",
              VStr (PyStr.join "; "
                      (filter (fun t => negb (Views.is_pmc t))
                              (Views.other_id_texts medline))))]
    else Raise TypeError.
Proof.
  unfold parse_other_id, Views.other_id_texts. rewrite other_id_loop.
  now destruct (forallb Spec.has_text (El.findall medline "OtherID")).
Qed.

(** The PMID of a citation that has a MedlineCitation: the extractor
    always returns, and what it returns is a string except in one case, the
    PMID element that is there without text, for which it is [None]. *)
Theorem parse_pmid_spec (pubmed_article medline : Element) :
  El.find pubmed_article "MedlineCitation" = Some medline ->
  exists v, parse_pmid pubmed_article = Ok v /\
            (v = VNone <-> exists p, El.find medline "PMID" = Some p /\ El.text p = None) /\
            (v <> VNone -> is_str v = true).
Proof.
  intros Hm. unfold parse_pmid. rewrite Hm; cbn [nonnull bind].
  destruct (El.find medline "PMID") as [p|].
  - exists (of_text (El.text p)). split; [reflexivity|].
    destruct (El.text p) as [t|] eqn:E; simpl; split.
    + split; [discriminate|]. intros (q & Hq & Hn). injection Hq as <-. congruence.
    + reflexivity.
    + split; [eauto|reflexivity].
    + congruence.
  - assert (Hno : forall s, (VStr s = VNone <->
               exists p : Element, None = Some p /\ El.text p = None)).
    { intros s. split; [discriminate|]. intros (q & Hq & _). discriminate. }
    destruct (El.find_path pubmed_article _) as [ids|];
      [destruct (El.find_attr ids "ArticleId" "IdType" "pmid") as [q|];
       [destruct (El.text q)|]|];
      eexists; (split; [reflexivity|]); split; auto.
Qed.

(** Journal info: medline_ta, nlm_unique_id and country are always
    strings; issn_linking is a string except for an ISSNLinking element
    without text, for which it is [None]. *)
Theorem journal_info_strings (medline : Element) :
  let info := parse_journal_info medline in
  is_str (Dict.get info "medline_ta") = true /\
  is_str (Dict.get info "nlm_unique_id") = true /\
  is_str (Dict.get info "country") = true /\
  (Dict.get info "issn_linking" = VNone <->
   exists journal_info x,
     El.find medline "MedlineJournalInfo" = Some journal_info /\
     El.find journal_info "ISSNLinking" = Some x /\ El.text x = None) /\
  (Dict.get info "issn_linking" <> VNone -> is_str (Dict.get info "issn_linking") = true).
Proof.
  cbv zeta. unfold parse_journal_info.
  destruct (El.find medline "MedlineJournalInfo") as [ji|]; cbn [Dict.get String.eqb Ascii.eqb Bool.eqb is_str].
  - do 3 (split; [reflexivity|]).
    destruct (El.find ji "ISSNLinking") as [x|] eqn:Ex.
    + destruct (El.text x) as [t|] eqn:Et; simpl; split.
      * split; [discriminate|]. intros (j & y & Hj & Hy & Hn).
        injection Hj as <-. rewrite Ex in Hy. injection Hy as <-. congruence.
      * reflexivity.
      * split; [eauto 6 | reflexivity].
      * congruence.
    + split; [|reflexivity]. split; [discriminate|].
      intros (j & y & Hj & Hy & _). injection Hj as <-. congruence.
  - do 3 (split; [reflexivity|]). split; [|reflexivity].
    split; [discriminate|]. intros (j & y & Hj & _). discriminate.
Qed.

(** The chemical list: the entries [registry:UI:name] of the chemicals,
    joined, when every Chemical has a RegistryNumber and a NameOfSubstance
    with text; an [AttributeError] as soon as one has not. *)
Theorem parse_chemical_list_spec (medline : Element) :
  parse_chemical_list medline
  = if forallb Views.chemical_wf (Views.chemicals medline)
    then Ok (PyStr.join "; " (map Views.chemical_text (Views.chemicals medline)))
    else Raise AttributeError.
Proof.
  unfold parse_chemical_list, Views.chemicals.
  destruct (El.find medline "ChemicalList") as [l|]; [|reflexivity].
  rewrite (@mapM_guarded _ _ _ Views.chemical_wf Views.chemical_text AttributeError).
  - now destruct (forallb Views.chemical_wf (El.findall l "Chemical")).
  - intros c. unfold Views.chemical_wf, Views.chemical_text, Spec.has_text.
    destruct (El.find c "RegistryNumber") as [rn|]; [|discriminate].
    destruct (El.find c "NameOfSubstance") as [sn|]; [|discriminate].
    cbn [nonnull bind]. destruct (El.text rn); [|discriminate].
    cbn [nonnull bind]. destruct (El.text sn); [reflexivity | discriminate].
  - intros c. unfold Views.chemical_wf, Spec.has_text.
    destruct (El.find c "RegistryNumber") as [rn|]; [|reflexivity].
    cbn [nonnull bind]. destruct (El.text rn); cbn [nonnull bind]; [|reflexivity].
    destruct (El.find c "NameOfSubstance") as [sn|]; [|reflexivity].
    cbn [nonnull bind]. destruct (El.text sn); [discriminate | reflexivity].
Qed.

(** The publication types: the entries [UI:text] with the text stripped,
    joined; a PublicationType without text is an [AttributeError]. *)
Theorem parse_publication_types_spec (medline : Element) :
  parse_publication_types medline
  = if forallb Spec.has_text (Views.publication_type_elements medline)
    then Ok (PyStr.join "; "
               (map (fun p => ui p ++ ":" ++ PyStr.strip (PyStr.or_empty (El.text p)))
                    (Views.publication_type_elements medline)))
    else Raise AttributeError.
Proof.
  unfold parse_publication_types, Views.publication_type_elements.
  destruct (El.find_path medline _) as [l|]; [|reflexivity].
  rewrite (@mapM_guarded _ _ _ Spec.has_text
             (fun p => ui p ++ ":" ++ PyStr.strip (PyStr.or_empty (El.text p)))
             AttributeError).
  - now destruct (forallb Spec.has_text (El.findall l "PublicationType")).
  - intros p. unfold Spec.has_text. destruct (El.text p); [reflexivity | discriminate].
  - intros p. unfold Spec.has_text. destruct (El.text p); [discriminate | reflexivity].
Qed.

Lemma remove_absent (old s : string) :
  PyStr.contains old s = false -> PyStr.remove_all old s = s.
Proof.
  unfold PyStr.remove_all. induction s as [|c s IH]; [reflexivity|].
  cbn [PyStr.contains PyStr.remove_from]. intros H.
  apply orb_false_iff in H as [Hp Hc]. rewrite Hp. now rewrite (IH Hc).
Qed.

(** An affiliation that does not contain the boilerplate sentence is kept
    as it is in the source, surrounding white space included. *)
Theorem affiliation_kept (authors_type : string) (author a : Element) (t : string) :
  El.find_path author ["AffiliationInfo"; "Affiliation"] = Some a ->
  El.text a = Some t ->
  PyStr.contains boilerplate_affiliation t = false ->
  Dict.get (author_dict authors_type author) "affiliation" = VStr t.
Proof.
  intros Ha Ht Hc. unfold author_dict. rewrite Ha, Ht.
  destruct (El.find author "Identifier"); cbn [Dict.get String.eqb Ascii.eqb Bool.eqb PyStr.or_empty];
    now rewrite (remove_absent _ _ Hc).
Qed.

Lemma subheading_loop_keeps_terms (d : Element) (qs : list Element) (acc l : MeshLists) :
  foldM (mesh_subheading_step d) acc qs = Ok l ->
  mesh_terms_list l = mesh_terms_list acc.
Proof.
  revert acc; induction qs as [|q qs IH]; simpl; intros acc H.
  - now injection H as <-.
  - bind_inv H. rewrite (IH _ H). unfold mesh_subheading_step in E.
    bind_inv E. bind_inv E. now injection E as <-.
Qed.

Lemma heading_step_term (acc l : MeshLists) (heading : Element) :
  mesh_heading_step acc heading = Ok l ->
  exists d t,
    El.find heading "DescriptorName" = Some d /\
    cat [Some (ui d); Some ":"; El.text d] = Ok t /\
    mesh_terms_list l = (mesh_terms_list acc ++ [t])%list.
Proof.
  unfold mesh_heading_step. intros H.
  bind_inv H. apply nonnull_ok in E. bind_inv H.
  exists a, a0. do 2 (split; [assumption|]).
  destruct (El.findall heading "QualifierName") as [|q qs].
  - bind_inv H. bind_inv H. now injection H as <-.
  - now rewrite (subheading_loop_keeps_terms _ _ _ H).
Qed.

Lemma heading_loop_terms (headings : list Element) (acc l : MeshLists) :
  foldM mesh_heading_step acc headings = Ok l ->
  exists ts,
    mapM (fun m => d <- nonnull (El.find m "DescriptorName") ;;
                   cat [Some (ui d); Some ":"; El.text d]) headings = Ok ts /\
    mesh_terms_list l = (mesh_terms_list acc ++ ts)%list.
Proof.
  revert acc; induction headings as [|h hs IH]; cbn [foldM mapM]; intros acc H.
  - injection H as <-. exists []. now rewrite app_nil_r.
  - bind_inv H. destruct (heading_step_term _ _ E) as (d & t & Hd & Ht & Hl).
    destruct (IH _ H) as (ts & Hts & Hl').
    exists (t :: ts). rewrite Hd. cbn [nonnull bind]. rewrite Ht. cbn [bind].
    rewrite Hts. cbn [bind]. split; [reflexivity|].
    rewrite Hl', Hl, <- app_assoc. reflexivity.
Qed.

(** Whenever [parse_mesh_info] returns, [parse_mesh_terms] returns too and
    is the mesh_terms entry of its result; the converse fails, since a
    qualifier without text stops [parse_mesh_info] only. *)
Theorem mesh_terms_agree (medline : Element) (info : dict) :
  parse_mesh_info medline = Ok info ->
  exists terms, parse_mesh_terms medline = Ok terms
                /\ Dict.get info "mesh_terms" = VStr terms.
Proof.
  unfold parse_mesh_info, parse_mesh_terms.
  destruct (El.find medline "MeshHeadingList") as [mesh|].
  - intros H. bind_inv H. injection H as <-.
    destruct (heading_loop_terms _ _ E) as (ts & -> & Hl). cbn [bind].
    eexists; split; [reflexivity|]. simpl in Hl. now rewrite Hl.
  - intros H; injection H as <-. now exists "".
Qed.

(** The grants-only driver: when it returns, every citation of the tree
    has its list of grants, the result is these lists one after the other in
    the order of the search, and the list of a citation has one record per
    child of
    its GrantList: the record has the five grant fields, its pmid is the
    PMID that [parse_pmid] returns for this citation and not for another
    one, and each of the other fields is the text of the child of that name
    - [None] for a child without text, the empty string without the child. *)
Theorem grant_records_owner (root : Element) (out : list dict) :
  parse_medline_grant_id root = Ok out ->
  exists per_citation,
    out = concat per_citation /\
    (forall c, Spec.citation_node root c ->
               exists grants, In grants per_citation /\ parse_grant_id c = Ok grants) /\
    Forall2 (fun citation grants =>
               exists medline article pmid,
                 El.find citation "MedlineCitation" = Some medline /\
                 El.find medline "Article" = Some article /\
                 parse_pmid citation = Ok pmid /\
                 Forall2 (fun grant record =>
                            Dict.keys record
                            = ["pmid"; "grant_id"; "grant_acronym"; "country"; "agency"] /\
                            Dict.get record "pmid" = pmid /\
                            Dict.get record "grant_id" = Views.child_text grant "GrantID" /\
                            Dict.get record "grant_acronym"
                            = Views.child_text grant "Acronym" /\
                            Dict.get record "country" = Views.child_text grant "Country" /\
                            Dict.get record "agency" = Views.child_text grant "Agency")
                         (Views.grant_elements article) grants)
            (medline_citations root) per_citation.
Proof.
  unfold parse_medline_grant_id. intros H. bind_inv H. injection H as <-.
  exists a. split; [reflexivity|].
  apply mapM_ok_Forall2 in E. split.
  - intros c Hc. apply medline_citations_spec in Hc.
    destruct (Forall2_in_left E _ Hc) as (grants & Hin & Hg). eauto.
  - induction E as [|c gs cs gss Hc _ IH]; constructor; [|exact IH].
    unfold Views.grant_elements.
    unfold parse_grant_id in Hc.
    bind_inv Hc. apply nonnull_ok in E. bind_inv Hc. bind_inv Hc. apply nonnull_ok in E1.
    exists a, a1, a0. repeat split; try assumption.
    assert (Hgs : gs = map (grant_dict a0)
                           match El.find a1 "GrantList" with
                           | Some grants => El.getchildren grants
                           | None => []
                           end)
      by (destruct (El.find a1 "GrantList"); injection Hc as <-; reflexivity).
    rewrite Hgs. clear.
    induction (match El.find a1 "GrantList" with
               | Some grants => El.getchildren grants
               | None => []
               end) as [|g l IHl]; simpl; constructor; [|exact IHl].
    repeat split.
Qed.

(* ================================================================== *)
(** ** More properties of the extractors *)
(* ================================================================== *)

Section MoreProperties.

Variable stringify_children : Element -> string.
Variable month_or_day_formater : option string -> result (option string).

Local Notation "'assembled'" :=
  (parse_article_info stringify_children month_or_day_formater).

(** Every stage of the assembler, as a hypothesis of its own. *)
Ltac stages H :=
  unfold parse_article_info in H; do 28 bind_inv H; injection H as <-;
  repeat match goal with
         | E : nonnull _ = Ok _ |- _ => apply nonnull_ok in E
         end.

Ltac fresh_key := simpl; intuition discriminate.

Lemma parse_other_id_shape (medline : Element) (other : dict) :
  parse_other_id medline = Ok other ->
  exists pmc ids, other = [("pmc", VStr pmc); ("other_id", VStr ids)].
Proof.
  unfold parse_other_id; intros H. bind_inv H. destruct a as [pmc ids].
  injection H as <-. eauto.
Qed.

Lemma incl_by_test (l1 l2 : list string) :
  forallb (fun k => existsb (String.eqb k) l2) l1 = true -> incl l1 l2.
Proof.
  intros H k Hk. rewrite forallb_forall in H. specialize (H k Hk).
  apply existsb_exists in H as (k' & Hk' & E). apply String.eqb_eq in E. now subst.
Qed.

(** The keys of a record: the literal keys, then [affiliations] in string
    mode of the authors only, then the OtherID and journal-info keys.  In
    string mode of the authors these are the keys of a delete record. *)
Theorem article_record_keys (cfg : Config) (pubmed_article : Element) (r : dict) :
  assembled cfg pubmed_article = Ok r ->
  Dict.keys r
  = (Views.literal_keys ++ (if author_list cfg then [] else ["affiliations"])
     ++ Views.update_keys)%list
  /\ (author_list cfg = false ->
      forall pmid k, In k (Dict.keys r) <-> In k (Dict.keys (delete_dict pmid)))
  /\ (author_list cfg = true -> Dict.get r "affiliations" = VNone).
Proof.
  intros H.
  assert (Hkeys : Dict.keys r
                  = (Views.literal_keys ++ (if author_list cfg then [] else ["affiliations"])
                     ++ Views.update_keys)%list
                  /\ (author_list cfg = true -> Dict.get r "affiliations" = VNone)).
  { stages H.
    match goal with Ho : parse_other_id _ = Ok _ |- _ =>
      destruct (parse_other_id_shape _ Ho) as (pmc & ids & ->)
    end.
    unfold parse_journal_info.
    destruct (author_list cfg);
      match goal with |- context [El.find ?m "MedlineJournalInfo"] =>
        destruct (El.find m "MedlineJournalInfo")
      end; split; try reflexivity; discriminate. }
  destruct Hkeys as [Hk Ha]. split; [exact Hk|]. split; [|exact Ha].
  intros Hflag pmid k. rewrite Hk, Hflag.
  split; apply incl_by_test; vm_compute; reflexivity.
Qed.

Lemma date_extractor_ok (journal : Element) (year_only : bool) (v : pyval) :
  date_extractor month_or_day_formater journal year_only = Ok v ->
  exists issue others pubdate,
    El.findall journal "JournalIssue" = issue :: others /\
    El.find issue "PubDate" = Some pubdate /\
    get_date_info month_or_day_formater pubdate year_only false = Ok v.
Proof.
  unfold date_extractor. intros H.
  destruct (El.findall journal "JournalIssue") as [|issue others]; [discriminate|].
  cbn [bind] in H. bind_inv H. apply nonnull_ok in E. eauto 7.
Qed.

(** The personal-subject-names extractor returns nothing but the empty
    list, and only when the list element has no PersonalNameSubject. *)
Lemma personal_subject_names_ok (medline : Element) (l : list dict) :
  parse_personal_subject_names_list medline = Ok l ->
  l = [] /\
  forall list_xml, El.find medline "PersonalNameSubjectList" = Some list_xml ->
                   El.findall list_xml "PersonalNameSubject" = [].
Proof.
  unfold parse_personal_subject_names_list.
  destruct (El.find medline "PersonalNameSubjectList") as [x|].
  - destruct (El.findall x "PersonalNameSubject") as [|p ps] eqn:E; simpl.
    + intros H; injection H as <-. split; [reflexivity|].
      intros y Hy; injection Hy as <-. exact E.
    + discriminate.
  - intros H; injection H as <-. split; [reflexivity | discriminate].
Qed.

Lemma switchable_stage_view (flag : bool) (row : dict -> list pyval)
      (records : list dict) (v : pyval) :
  (if flag then Ok (as_list records)
   else a <- joined_rows row records ;; Ok (VStr a)) = Ok v ->
  v = Views.field_view flag row records /\
  (flag = false -> Views.all_strings row records = true).
Proof. apply switchable_stage. Qed.

(** What a returned record tells about the stages of the assembler. *)
Lemma record_anatomy (cfg : Config) (pubmed_article : Element) (r : dict) :
  assembled cfg pubmed_article = Ok r ->
  exists medline article journal status history elocations grants mesh,
    (El.find pubmed_article "MedlineCitation" = Some medline /\
     El.find medline "Article" = Some article /\
     El.find article "Journal" = Some journal /\
     El.find_path pubmed_article ["PubmedData"; "PublicationStatus"] = Some status) /\
    (parse_pubmed_history_dates month_or_day_formater pubmed_article
                                (year_info_only cfg) (parse_time cfg) = Ok history /\
     parse_elocation_ids pubmed_article = Ok elocations /\
     parse_grant_id pubmed_article = Ok grants /\
     parse_mesh_info medline = Ok mesh /\
     parse_personal_subject_names_list medline = Ok [] /\
     date_extractor month_or_day_formater journal (year_info_only cfg)
     = Ok (Dict.get r "pubdate") /\
     parse_pmid pubmed_article = Ok (Dict.get r "pmid")) /\
    (Dict.get r "publication_status" = of_text (El.text status) /\
     Dict.get r "mesh_terms" = Dict.get mesh "mesh_terms" /\
     Dict.get r "authors"
     = Views.field_view (author_list cfg) (Views.defaulted Views.author_keys)
                        (parse_author_affiliation medline) /\
     Dict.get r "investigators"
     = Views.field_view (investigator_list cfg) (Views.defaulted Views.person_keys)
                        (parse_investigators_list medline) /\
     Dict.get r "history_dates"
     = Views.field_view (history_dates_list cfg) (Views.defaulted ["status"; "date"])
                        history /\
     Dict.get r "elocation_ids"
     = Views.field_view (elocation_ids_list cfg)
                        (Views.defaulted ["type"; "ELocationID"]) elocations /\
     Dict.get r "personal_subject_names"
     = Views.field_view (personal_subject_names_list cfg)
                        (Views.defaulted Views.person_keys) [] /\
     Dict.get r "supplementary_concepts"
     = Views.field_view (supplementary_concepts_list cfg)
                        (Views.plain Views.concept_keys)
                        (parse_supplementary_concepts_list medline) /\
     Dict.get r "grant_ids"
     = Views.field_view (grant_ids_list cfg) (Views.plain Views.grant_keys) grants) /\
    ((history_dates_list cfg = false ->
      Views.all_strings (Views.defaulted ["status"; "date"]) history = true) /\
     (elocation_ids_list cfg = false ->
      Views.all_strings (Views.defaulted ["type"; "ELocationID"]) elocations = true) /\
     (supplementary_concepts_list cfg = false ->
      Views.all_strings (Views.plain Views.concept_keys)
                        (parse_supplementary_concepts_list medline) = true) /\
     (grant_ids_list cfg = false ->
      Views.all_strings (Views.plain Views.grant_keys) grants = true)).
Proof.
  intros H. stages H.
  match goal with
  | Hp : parse_personal_subject_names_list _ = Ok ?l |- _ =>
      destruct (personal_subject_names_ok _ Hp) as [-> _]
  end.
  match goal with
  | Hm : El.find pubmed_article "MedlineCitation" = Some ?m,
    Ha : El.find ?m "Article" = Some ?a,
    Hj : El.find ?a "Journal" = Some ?j,
    Hs : El.find_path pubmed_article _ = Some ?st,
    Hh : parse_pubmed_history_dates _ _ _ _ = Ok ?h,
    He : parse_elocation_ids _ = Ok ?e,
    Hg : parse_grant_id _ = Ok ?g,
    Hi : parse_mesh_info _ = Ok ?i,
    Ho : parse_other_id ?m = Ok _ |- _ =>
      exists m, a, j, st, h, e, g, i;
      rewrite !get_after_updates by first [exact Ho | fresh_key]
  end.
  repeat match goal with
         | E : (if _ then Ok (as_list _) else _) = Ok _ |- _ =>
             apply switchable_stage_view in E; destruct E as [-> ?]
         end.
  split; [repeat split; assumption|].
  split; [destruct (author_list cfg); repeat split; first [assumption | reflexivity]|].
  split; [destruct (author_list cfg); repeat split; reflexivity|].
  repeat split; assumption.
Qed.

(** A record is returned only for a citation that has a MedlineCitation,
    an Article, a Journal, a JournalIssue with a PubDate and a
    PubmedData/PublicationStatus; its pubdate is the date of the PubDate of
    the first JournalIssue, without the time whatever the configuration. *)
Theorem record_requires_nodes (cfg : Config) (pubmed_article : Element) (r : dict) :
  assembled cfg pubmed_article = Ok r ->
  exists medline article journal issue others pubdate status,
    El.find pubmed_article "MedlineCitation" = Some medline /\
    El.find medline "Article" = Some article /\
    El.find article "Journal" = Some journal /\
    El.findall journal "JournalIssue" = issue :: others /\
    El.find issue "PubDate" = Some pubdate /\
    El.find_path pubmed_article ["PubmedData"; "PublicationStatus"] = Some status /\
    Dict.get r "publication_status" = of_text (El.text status) /\
    get_date_info month_or_day_formater pubdate (year_info_only cfg) false
    = Ok (Dict.get r "pubdate").
Proof.
  intros H.
  destruct (record_anatomy _ _ H)
    as (m & a & j & st & h & e & g & i & (Hm & Ha & Hj & Hs) & Hx & (Hp & _) & _).
  destruct Hx as (_ & _ & _ & _ & _ & Hd & _).
  destruct (date_extractor_ok _ _ Hd) as (issue & others & pd & Hi & Hpd & Hg).
  exists m, a, j, issue, others, pd, st. auto 10.
Qed.

(** In a record, each switchable field is the list of the sub-records of
    its extractor in list mode and, in string mode, the joined form of that
    same list: the fields of a sub-record between bars, the sub-records
    between semicolons. *)
Theorem switchable_fields (cfg : Config) (pubmed_article : Element) (r : dict) :
  assembled cfg pubmed_article = Ok r ->
  exists medline history elocations grants,
    El.find pubmed_article "MedlineCitation" = Some medline /\
    parse_pubmed_history_dates month_or_day_formater pubmed_article
                               (year_info_only cfg) (parse_time cfg) = Ok history /\
    parse_elocation_ids pubmed_article = Ok elocations /\
    parse_grant_id pubmed_article = Ok grants /\
    Dict.get r "authors"
    = Views.field_view (author_list cfg) (Views.defaulted Views.author_keys)
                       (parse_author_affiliation medline) /\
    Dict.get r "investigators"
    = Views.field_view (investigator_list cfg) (Views.defaulted Views.person_keys)
                       (parse_investigators_list medline) /\
    Dict.get r "history_dates"
    = Views.field_view (history_dates_list cfg) (Views.defaulted ["status"; "date"])
                       history /\
    Dict.get r "elocation_ids"
    = Views.field_view (elocation_ids_list cfg)
                       (Views.defaulted ["type"; "ELocationID"]) elocations /\
    Dict.get r "supplementary_concepts"
    = Views.field_view (supplementary_concepts_list cfg)
                       (Views.plain Views.concept_keys)
                       (parse_supplementary_concepts_list medline) /\
    Dict.get r "grant_ids"
    = Views.field_view (grant_ids_list cfg) (Views.plain Views.grant_keys) grants.
Proof.
  intros H.
  destruct (record_anatomy _ _ H)
    as (m & a & j & st & h & e & g & i & (Hm & _) & Hx & Hf & _).
  destruct Hx as (Hh & He & Hg & _).
  destruct Hf as (_ & _ & F1 & F2 & F3 & F4 & _ & F5 & F6).
  exists m, h, e, g. auto 12.
Qed.

(** No record carries a personal subject name: the field is the empty
    string or the empty list, and a citation with a PersonalNameSubject
    under its PersonalNameSubjectList has no record at all. *)
Theorem personal_subject_names_always_empty (cfg : Config) (pubmed_article : Element)
        (r : dict) :
  assembled cfg pubmed_article = Ok r ->
  Dict.get r "personal_subject_names"
  = (if personal_subject_names_list cfg then VList [] else VStr "") /\
  forall medline list_xml,
    El.find pubmed_article "MedlineCitation" = Some medline ->
    El.find medline "PersonalNameSubjectList" = Some list_xml ->
    El.findall list_xml "PersonalNameSubject" = [].
Proof.
  intros H.
  destruct (record_anatomy _ _ H)
    as (m & a & j & st & h & e & g & i & (Hm & _) & Hx & Hf & _).
  destruct Hx as (_ & _ & _ & _ & Hp & _).
  destruct Hf as (_ & _ & _ & _ & _ & _ & F & _).
  split.
  - rewrite F. now destruct (personal_subject_names_list cfg).
  - intros m' l Hm' Hl. rewrite Hm in Hm'; injection Hm' as <-.
    exact (proj2 (personal_subject_names_ok _ Hp) _ Hl).
Qed.

Lemma parse_grant_id_ok (pubmed_article : Element) (grants : list dict) :
  parse_grant_id pubmed_article = Ok grants ->
  exists medline article pmid,
    El.find pubmed_article "MedlineCitation" = Some medline /\
    El.find medline "Article" = Some article /\
    parse_pmid pubmed_article = Ok pmid /\
    grants = map (grant_dict pmid) (Views.grant_elements article).
Proof.
  unfold parse_grant_id, Views.grant_elements. intros H.
  bind_inv H. apply nonnull_ok in E. bind_inv H. bind_inv H. apply nonnull_ok in E1.
  exists a, a1, a0. repeat split; try assumption.
  destruct (El.find a1 "GrantList"); injection H as <-; reflexivity.
Qed.

Lemma grant_field_text (grant : Element) (name : string) (x : Element) :
  is_str (grant_field grant name) = true ->
  El.find grant name = Some x -> El.text x <> None.
Proof.
  unfold grant_field. intros H Hf. rewrite Hf in H.
  destruct (El.text x); [discriminate | discriminate H].
Qed.

(** In string mode of the grants a record is returned only when each
    GrantID, Acronym, Country and Agency element of each grant has text: an
    empty one of them makes the joined form raise. *)
Theorem joined_grants_need_text (cfg : Config) (pubmed_article medline article : Element)
        (r : dict) (grant : Element) (name : string) (x : Element) :
  assembled cfg pubmed_article = Ok r ->
  grant_ids_list cfg = false ->
  El.find pubmed_article "MedlineCitation" = Some medline ->
  El.find medline "Article" = Some article ->
  In grant (Views.grant_elements article) ->
  In name ["GrantID"; "Acronym"; "Country"; "Agency"] ->
  El.find grant name = Some x ->
  El.text x <> None.
Proof.
  intros H Hflag Hm Ha Hg Hn Hx.
  destruct (record_anatomy _ _ H)
    as (m & a & j & st & h & e & g & i & _ & Hs & _ & (_ & _ & _ & Hall)).
  destruct Hs as (_ & _ & Hgr & _).
  destruct (parse_grant_id_ok _ Hgr) as (m' & a' & pmid & Hm' & Ha' & _ & ->).
  rewrite Hm in Hm'; injection Hm' as <-. rewrite Ha in Ha'; injection Ha' as <-.
  specialize (Hall Hflag). unfold Views.all_strings in Hall.
  rewrite forallb_forall in Hall.
  specialize (Hall _ (in_map (grant_dict pmid) _ _ Hg)).
  cbn in Hall. rewrite !andb_true_iff in Hall.
  destruct Hall as (H1 & H2 & H3 & H4 & _).
  simpl in Hn.
  destruct Hn as [<- | [<- | [<- | [<- | []]]]];
    (eapply grant_field_text; [|exact Hx]; assumption).
Qed.

(** In string mode of the supplementary concepts a record is returned only
    when every SupplMeshName has a Type attribute, a UI attribute and text. *)
Theorem joined_concepts_need_attributes (cfg : Config)
        (pubmed_article medline list_xml concept : Element) (r : dict) :
  assembled cfg pubmed_article = Ok r ->
  supplementary_concepts_list cfg = false ->
  El.find pubmed_article "MedlineCitation" = Some medline ->
  El.find medline "SupplMeshList" = Some list_xml ->
  In concept (El.findall list_xml "SupplMeshName") ->
  El.get concept "Type" <> None /\ El.get concept "UI" <> None
  /\ El.text concept <> None.
Proof.
  intros H Hflag Hm Hl Hc.
  destruct (record_anatomy _ _ H)
    as (m & a & j & st & h & e & g & i & (Hm' & _) & _ & _ & (_ & _ & Hall & _)).
  rewrite Hm in Hm'; injection Hm' as <-.
  specialize (Hall Hflag). unfold Views.all_strings, parse_supplementary_concepts_list in Hall.
  rewrite Hl, forallb_forall in Hall.
  specialize (Hall _ (in_map _ _ _ Hc)). cbn in Hall.
  destruct (El.get concept "Type"), (El.get concept "UI"), (El.text concept);
    try discriminate Hall. repeat split; discriminate.
Qed.

Lemma delete_record_ok (p : Element) (d : dict) :
  delete_record p = Ok d -> Spec.is_delete_record p d.
Proof.
  intros H. destruct (El.text p) as [t|] eqn:Et.
  - destruct (@delete_record_spec p) as (d' & Hd' & Hspec); [congruence|].
    rewrite H in Hd'. injection Hd' as <-. exact Hspec.
  - unfold delete_record in H. rewrite Et in H. discriminate H.
Qed.

(** When the driver returns, every citation of the tree - the
    MedlineCitation children of the MedlineCitationSet elements below the
    root or, without any, the PubmedArticle elements below the root - was
    assembled and every delete notice has text; the result is the records of
    the citations followed by the records of the delete notices, each in the
    order in which the search finds them; nothing is skipped and nothing is
    added. *)
Theorem driver_output_shape (root : Element) (cfg : Config) (out : list dict) :
  parse_medline_xml stringify_children month_or_day_formater root cfg = Ok out ->
  exists articles deleted,
    out = (articles ++ deleted)%list /\
    (forall c, Spec.citation_node root c ->
               exists r, In r articles /\ assembled cfg c = Ok r) /\
    (forall r, In r articles ->
               exists c, Spec.citation_node root c /\ assembled cfg c = Ok r) /\
    (forall p, Spec.delete_notice root p ->
               exists d, In d deleted /\ Spec.is_delete_record p d) /\
    (forall d, In d deleted ->
               exists p, Spec.delete_notice root p /\ Spec.is_delete_record p d) /\
    Forall2 (fun citation record => assembled cfg citation = Ok record)
            (medline_citations root) articles /\
    Forall2 Spec.is_delete_record (delete_citations root) deleted /\
    List.length out
    = List.length (medline_citations root) + List.length (delete_citations root).
Proof.
  unfold parse_medline_xml. intros H. bind_inv H. bind_inv H. injection H as <-.
  apply mapM_ok_Forall2 in E. apply mapM_ok_Forall2 in E0.
  assert (Hd : Forall2 Spec.is_delete_record (delete_citations root) a0).
  { clear - E0. induction E0 as [|p d ps ds Hp _ IH]; constructor; [|exact IH].
    now apply delete_record_ok. }
  exists a, a0. split; [reflexivity|].
  split; [|split; [|split; [|split; [|split; [|split]]]]].
  - intros c Hc. apply medline_citations_spec in Hc.
    destruct (Forall2_in_left E _ Hc) as (r & Hin & Hr). eauto.
  - intros r Hr. destruct (Forall2_in_right E _ Hr) as (c & Hin & Hc).
    exists c; split; [now apply medline_citations_spec | exact Hc].
  - intros p Hp. apply delete_citations_spec in Hp.
    destruct (Forall2_in_left Hd _ Hp) as (d & Hin & Hr). eauto.
  - intros d Hin. destruct (Forall2_in_right Hd _ Hin) as (p & Hp & Hr).
    exists p; split; [now apply delete_citations_spec | exact Hr].
  - exact E.
  - exact Hd.
  - rewrite length_app. now rewrite (Forall2_length E), (Forall2_length E0).
Qed.

(** The descendant search of the two drivers starts below the root: a tree
    with no MedlineCitationSet and no PubmedArticle below its root - the
    root may be the MedlineCitationSet itself - has no grants and no article
    records, only its delete records. *)
Theorem root_container_yields_nothing (root : Element) (cfg : Config) :
  Forall (fun d => El.tag d <> "MedlineCitationSet" /\ El.tag d <> "PubmedArticle")
         (El.iterdescendants root) ->
  parse_medline_grant_id root = Ok [] /\
  parse_medline_xml stringify_children month_or_day_formater root cfg
  = mapM delete_record (delete_citations root).
Proof.
  intros H. unfold parse_medline_grant_id, parse_medline_xml.
  rewrite container_root_finds_nothing by exact H. cbn [mapM bind concat]. split; [reflexivity|].
  now destruct (mapM delete_record (delete_citations root)).
Qed.

Lemma bind_ext (A B : Type) (m : result A) (f g : A -> result B) :
  (forall a, f a = g a) -> bind m f = bind m g.
Proof. intros H. destruct m; simpl; [apply H | reflexivity]. Qed.

Lemma mapM_ext (A B : Type) (f g : A -> result B) (xs : list A) :
  (forall x, f x = g x) -> mapM f xs = mapM g xs.
Proof.
  intros H. induction xs as [|x xs IH]; simpl; [reflexivity|]. now rewrite H, IH.
Qed.

Lemma year_only_date (other : option string -> result (option string))
      (date_xml : Element) (pt pt' : bool) :
  get_date_info month_or_day_formater date_xml true pt
  = get_date_info other date_xml true pt'.
Proof.
  unfold get_date_info. destruct (El.find date_xml "Year"); [reflexivity|].
  destruct (El.find date_xml "MedlineDate") as [md|]; [|reflexivity].
  now destruct (El.text md).
Qed.

Lemma year_only_history (other : option string -> result (option string))
      (pubmed_article : Element) (pt pt' : bool) :
  parse_pubmed_history_dates month_or_day_formater pubmed_article true pt
  = parse_pubmed_history_dates other pubmed_article true pt'.
Proof.
  unfold parse_pubmed_history_dates.
  destruct (El.find pubmed_article "PubmedData"); [|reflexivity].
  destruct (El.find_path pubmed_article _); [|reflexivity].
  apply mapM_ext. intros p. now rewrite (year_only_date other p pt pt').
Qed.

Lemma year_only_pubdate (other : option string -> result (option string))
      (journal : Element) :
  date_extractor month_or_day_formater journal true = date_extractor other journal true.
Proof.
  unfold date_extractor. apply bind_ext. intros issue. apply bind_ext. intros d.
  apply year_only_date.
Qed.

Lemma year_only_completion (other : option string -> result (option string))
      (medline : Element) :
  parse_completion_date month_or_day_formater medline true
  = parse_completion_date other medline true.
Proof.
  unfold parse_completion_date.
  destruct (El.find medline "DateCompleted"); [apply year_only_date | reflexivity].
Qed.

Lemma year_only_modification (other : option string -> result (option string))
      (medline : Element) :
  parse_modification_date month_or_day_formater medline true
  = parse_modification_date other medline true.
Proof.
  unfold parse_modification_date.
  destruct (El.find medline "DateRevised"); [apply year_only_date | reflexivity].
Qed.

(** With year-only dates the month/day formatter is never consulted and the
    time switch has no effect: the assembler gives the same result, record
    or exception, for any formatter and either value of parse_time. *)
Theorem year_only_ignores_formatter
        (other : option string -> result (option string))
        (nlm authors references time time' history investigators elocations
             databanks subjects concepts grants : bool)
        (pubmed_article : Element) :
  parse_article_info stringify_children month_or_day_formater
    (mkConfig true nlm authors references time history investigators elocations
              databanks subjects concepts grants) pubmed_article
  = parse_article_info stringify_children other
      (mkConfig true nlm authors references time' history investigators elocations
                databanks subjects concepts grants) pubmed_article.
Proof.
  unfold parse_article_info.
  cbn [year_info_only nlm_category author_list reference_list parse_time
       history_dates_list investigator_list elocation_ids_list databank_list
       personal_subject_names_list supplementary_concepts_list grant_ids_list].
  repeat (rewrite ?(year_only_history other pubmed_article time time'),
                  ?(year_only_pubdate other), ?(year_only_completion other),
                  ?(year_only_modification other);
          apply bind_ext; intros ?).
  reflexivity.
Qed.

Lemma findall_path_nil (path : list string) : El.findall_path [] path = [].
Proof. induction path as [|n path IH]; simpl; [reflexivity | exact IH]. Qed.

Lemma find_path_without_first (e : Element) (name : string) (rest : list string) :
  El.find e name = None -> El.find_path e (name :: rest) = None.
Proof.
  unfold El.find, El.find_path. simpl. rewrite app_nil_r.
  destruct (El.findall e name); [|discriminate]. intros _.
  now rewrite findall_path_nil.
Qed.

Lemma history_dates_ok (pubmed_article : Element) (year_only time : bool)
      (history : list dict) :
  parse_pubmed_history_dates month_or_day_formater pubmed_article year_only time
  = Ok history ->
  Forall2 (fun p d => exists date,
               d = [("status", of_text (El.get p "PubStatus")); ("date", date)])
          (Views.history_elements pubmed_article) history.
Proof.
  unfold parse_pubmed_history_dates, Views.history_elements.
  destruct (El.find pubmed_article "PubmedData") eqn:Ed.
  - destruct (El.find_path pubmed_article ["PubmedData"; "History"]) as [h|].
    + intros H. apply mapM_ok_Forall2 in H.
      induction H as [|p d ps ds Hp _ IH]; constructor; [|exact IH].
      bind_inv Hp. injection Hp as <-. eauto.
    + intros H; injection H as <-. constructor.
  - rewrite (find_path_without_first _ _ _ Ed). intros H; injection H as <-. constructor.
Qed.

(** In string mode of the history dates a record is returned only when
    every PubMedPubDate has a PubStatus attribute. *)
Theorem joined_history_needs_status (cfg : Config) (pubmed_article : Element)
        (r : dict) (p : Element) :
  assembled cfg pubmed_article = Ok r ->
  history_dates_list cfg = false ->
  In p (Views.history_elements pubmed_article) ->
  El.get p "PubStatus" <> None.
Proof.
  intros H Hflag Hp.
  destruct (record_anatomy _ _ H)
    as (m & a & j & st & h & e & g & i & _ & (Hh & _) & _ & (Hall & _)).
  specialize (Hall Hflag). apply history_dates_ok in Hh.
  unfold Views.all_strings in Hall. rewrite forallb_forall in Hall.
  induction Hh as [|q d qs ds (date & ->) _ IH]; [destruct Hp|].
  destruct Hp as [<- | Hp].
  - specialize (Hall _ (or_introl eq_refl)). cbn in Hall.
    destruct (El.get q "PubStatus"); [discriminate | discriminate Hall].
  - apply IH; [exact Hp|]. intros x Hx. apply Hall. now right.
Qed.

End MoreProperties.

(* ================================================================== *)
(** ** The further theorems at the sample trees *)
(* ================================================================== *)

Import MoreExamples.

Lemma article_record_keys_witness :
  Dict.keys rich_record
  = (Views.literal_keys ++ ["affiliations"] ++ Views.update_keys)%list /\
  (In "affiliations" (Dict.keys rich_record)
   <-> In "affiliations" (Dict.keys (delete_dict "12"))).
Proof.
  assert (Hr : parse_article_info Utils.stringify_children Utils.month_or_day_formater
                                  default_config rich_citation = Ok rich_record)
    by (vm_compute; reflexivity).
  destruct (article_record_keys _ _ _ _ Hr) as (H1 & H2 & _).
  split; [exact H1 | exact (H2 eq_refl "12" "affiliations")].
Defined.

Lemma record_requires_nodes_witness :
  exists medline article journal issue others pubdate status,
    El.find rich_citation "MedlineCitation" = Some medline /\
    El.find medline "Article" = Some article /\
    El.find article "Journal" = Some journal /\
    El.findall journal "JournalIssue" = issue :: others /\
    El.find issue "PubDate" = Some pubdate /\
    El.find_path rich_citation ["PubmedData"; "PublicationStatus"] = Some status /\
    Dict.get rich_record "publication_status" = of_text (El.text status) /\
    get_date_info Utils.month_or_day_formater pubdate (year_info_only default_config) false
    = Ok (Dict.get rich_record "pubdate").
Proof.
  assert (Hr : parse_article_info Utils.stringify_children Utils.month_or_day_formater
                                  default_config rich_citation = Ok rich_record)
    by (vm_compute; reflexivity).
  exact (record_requires_nodes _ _ _ _ Hr).
Defined.

Lemma switchable_fields_witness :
  Dict.get rich_record "investigators" = VStr "Pasteur|Louis||" /\
  Dict.get rich_record "authors" = VStr "Koch|Robert|R||authors|||" /\
  Dict.get rich_record "grant_ids"
  = VStr "HL17731|HL|United States|NHLBI NIH HHS;AI00001|||".
Proof.
  assert (Hr : parse_article_info Utils.stringify_children Utils.month_or_day_formater
                                  default_config rich_citation = Ok rich_record)
    by (vm_compute; reflexivity).
  destruct (switchable_fields _ _ _ _ Hr)
    as (m & h & e & g & Hm & Hh & He & Hg & F1 & F2 & F3 & F4 & F5 & F6).
  vm_compute in Hm. injection Hm as <-.
  vm_compute in Hg. injection Hg as <-.
  rewrite F1, F2, F6. repeat split; vm_compute; reflexivity.
Defined.

Lemma personal_subject_names_always_empty_witness :
  Dict.get rich_record "personal_subject_names" = VStr "".
Proof.
  assert (Hr : parse_article_info Utils.stringify_children Utils.month_or_day_formater
                                  default_config rich_citation = Ok rich_record)
    by (vm_compute; reflexivity).
  exact (proj1 (personal_subject_names_always_empty _ _ _ _ Hr)).
Defined.

Lemma joined_grants_need_text_witness :
  El.text (Examples.leaf "Country" "United States") <> None.
Proof.
  assert (Hr : parse_article_info Utils.stringify_children Utils.month_or_day_formater
                                  default_config rich_citation = Ok rich_record)
    by (vm_compute; reflexivity).
  apply (@joined_grants_need_text Utils.stringify_children Utils.month_or_day_formater
           default_config rich_citation rich_medline rich_article rich_record
           sample_grant "Country" (Examples.leaf "Country" "United States") Hr);
    try reflexivity.
  - vm_compute. left; reflexivity.
  - simpl. auto.
Defined.

Lemma joined_concepts_need_attributes_witness :
  El.get (attributed "SupplMeshName" [("Type", "Disease"); ("UI", "C000001")]
                     "Sample disease") "Type" <> None /\
  El.get (attributed "SupplMeshName" [("Type", "Disease"); ("UI", "C000001")]
                     "Sample disease") "UI" <> None /\
  El.text (attributed "SupplMeshName" [("Type", "Disease"); ("UI", "C000001")]
                      "Sample disease") <> None.
Proof.
  assert (Hr : parse_article_info Utils.stringify_children Utils.month_or_day_formater
                                  default_config rich_citation = Ok rich_record)
    by (vm_compute; reflexivity).
  apply (@joined_concepts_need_attributes
           Utils.stringify_children Utils.month_or_day_formater
           default_config rich_citation rich_medline
           (Examples.node "SupplMeshList"
              [attributed "SupplMeshName" [("Type", "Disease"); ("UI", "C000001")]
                          "Sample disease"])
           _ rich_record Hr); try reflexivity.
  vm_compute. left; reflexivity.
Defined.

Lemma joined_history_needs_status_witness :
  El.get (Elem "PubMedPubDate" [("PubStatus", "medline")] None
               [Examples.leaf "Year" "1980"] None) "PubStatus" <> None.
Proof.
  assert (Hr : parse_article_info Utils.stringify_children Utils.month_or_day_formater
                                  default_config rich_citation = Ok rich_record)
    by (vm_compute; reflexivity).
  apply (@joined_history_needs_status
           Utils.stringify_children Utils.month_or_day_formater
           default_config rich_citation rich_record _ Hr); [reflexivity|].
  vm_compute. right; left; reflexivity.
Defined.

Lemma parse_doi_last_elocation_witness :
  parse_doi Examples.doi_then_pii = Ok "" /\
  parse_doi Examples.bare_doi_then_pii = Raise AttributeError /\
  parse_doi Examples.doi_in_article_ids = Ok "10.1000/x".
Proof.
  split; [|split].
  - etransitivity;
      [exact (@parse_doi_last_elocation Examples.doi_then_pii _ _ eq_refl eq_refl)|].
    vm_compute; reflexivity.
  - etransitivity;
      [exact (@parse_doi_last_elocation Examples.bare_doi_then_pii _ _ eq_refl eq_refl)|].
    vm_compute; reflexivity.
  - etransitivity;
      [exact (@parse_doi_last_elocation Examples.doi_in_article_ids _ _ eq_refl eq_refl)|].
    vm_compute; reflexivity.
Defined.

Lemma parse_elocation_ids_spec_witness :
  parse_elocation_ids rich_citation
  = Ok [[("type", VStr "pii"); ("ELocationID", VStr "S1")];
        [("type", VStr "doi"); ("ELocationID", VStr "10.1000/x")]].
Proof.
  exact (@parse_elocation_ids_spec rich_citation rich_medline rich_article
                                   eq_refl eq_refl).
Defined.

Lemma parse_pmid_spec_witness :
  exists v, parse_pmid rich_citation = Ok v /\
            (v = VNone <->
             exists p, El.find rich_medline "PMID" = Some p /\ El.text p = None) /\
            (v <> VNone -> is_str v = true).
Proof. exact (@parse_pmid_spec rich_citation rich_medline eq_refl). Defined.

Lemma affiliation_kept_witness :
  Dict.get (author_dict "authors" sample_author) "affiliation"
  = VStr " Institute of Hygiene, Berlin ".
Proof.
  apply (@affiliation_kept "authors" sample_author
           (Examples.leaf "Affiliation" " Institute of Hygiene, Berlin ")
           " Institute of Hygiene, Berlin "); vm_compute; reflexivity.
Defined.

Lemma mesh_terms_agree_witness :
  exists terms, parse_mesh_terms Examples.medline_with_mesh = Ok terms
                /\ Dict.get sample_mesh_info "mesh_terms" = VStr terms.
Proof.
  apply mesh_terms_agree. vm_compute; reflexivity.
Defined.

Lemma grant_records_owner_witness :
  exists per_citation,
    rich_tree_grants = concat per_citation /\
    List.length per_citation = 2 /\
    (exists grants, In grants per_citation /\ parse_grant_id rich_citation = Ok grants).
Proof.
  destruct (@grant_records_owner rich_tree rich_tree_grants)
    as (per_citation & Hout & Hcover & Hper); [vm_compute; reflexivity|].
  exists per_citation. split; [exact Hout|]. split.
  - rewrite <- (Forall2_length Hper). vm_compute; reflexivity.
  - apply Hcover. apply medline_citations_spec. vm_compute; auto.
Defined.

Lemma driver_output_shape_witness :
  exists articles deleted,
    direct_tree_output = (articles ++ deleted)%list /\
    (exists r, In r articles /\
               parse_article_info Utils.stringify_children Utils.month_or_day_formater
                                  default_config Examples.plain_citation = Ok r) /\
    (exists d, In d deleted /\
               Spec.is_delete_record (Examples.leaf "PMID" "13") d) /\
    List.length direct_tree_output = 3.
Proof.
  destruct (@driver_output_shape Utils.stringify_children Utils.month_or_day_formater
                                 Examples.direct_tree default_config direct_tree_output)
    as (articles & deleted & Hout & Hc & _ & Hp & _ & _ & _ & Hlen);
    [vm_compute; reflexivity|].
  exists articles, deleted. split; [exact Hout|]. split; [|split].
  - apply Hc. apply medline_citations_spec. vm_compute; auto.
  - apply Hp. apply delete_citations_spec. vm_compute; auto.
  - exact Hlen.
Defined.

Lemma root_container_yields_nothing_witness :
  parse_medline_grant_id container_root_tree = Ok [] /\
  parse_medline_xml Utils.stringify_children Utils.month_or_day_formater
                    container_root_tree default_config
  = mapM delete_record (delete_citations container_root_tree).
Proof.
  apply root_container_yields_nothing.
  vm_compute. repeat constructor; discriminate.
Defined.
